(** * MediBot: the glue logic of [ai_doc.py]

    A shallow embedding of the Streamlit script [ai_doc.py]: the
    conversation kept in the session state, the call to the generative
    model, and the search for hospitals through the Overpass API.

    The script talks to three libraries whose code is not part of the
    repository (streamlit, google.generativeai, requests).  Their calls
    are modelled by what they hand back to the script in one run: a
    [surface] holds the values of the widgets, a [world] holds the
    results of the calls that leave the process.  Every statement below
    quantifies over both. *)

From Stdlib Require Import String Ascii List ZArith Lia Bool.
From Stdlib Require Import Floats.SpecFloat.
Import ListNotations.
Local Open Scope string_scope.
Local Open Scope Z_scope.

(** ** Characters the string notation does not write directly *)

Definition nl : string := String "010"%char EmptyString.
Definition dq : string := String "034"%char EmptyString.

(** ** Python values

    [response.json()] hands back whatever the JSON text denotes: the
    script inspects it with the dynamic operations of Python ([.get],
    [in], indexing, iteration), each of which raises on the values it
    is not defined for. *)

#[local] Set Warnings "-register-all".

Inductive pyval : Type :=
| PNone
| PBool (b : bool)
| PInt (z : Z)
| PFloat (f : spec_float)
| PStr (s : string)
| PList (items : list pyval)
| PDict (entries : list (string * pyval)).

(** A dict is kept as its entries in insertion order; the first entry of
    a key is the one that counts. *)
Fixpoint dict_get (key : string) (entries : list (string * pyval)) : option pyval :=
  match entries with
  | [] => None
  | (k, v) :: rest => if String.eqb key k then Some v else dict_get key rest
  end.

Definition dict_has (key : string) (entries : list (string * pyval)) : bool :=
  match dict_get key entries with Some _ => true | None => false end.

Fixpoint dict_keys (seen : list string) (entries : list (string * pyval)) : list string :=
  match entries with
  | [] => []
  | (k, _) :: rest =>
      if existsb (String.eqb k) seen then dict_keys seen rest
      else k :: dict_keys (k :: seen) rest
  end.

Definition type_name (v : pyval) : string :=
  match v with
  | PNone => "NoneType"
  | PBool _ => "bool"
  | PInt _ => "int"
  | PFloat _ => "float"
  | PStr _ => "str"
  | PList _ => "list"
  | PDict _ => "dict"
  end.

(** ** Exceptions

    Only instances of [Exception] are values of [exn]; the exception
    that [st.rerun()] uses to leave the script derives from
    [BaseException] and is a separate [ending] of the script monad below. *)

Inductive exn : Type :=
| KeyError (key : string)
| NoAttribute (ty attr : string)   (* AttributeError *)
| NotIterable (ty : string)        (* TypeError of [for] *)
| NotContainer (ty : string)       (* TypeError of [in] *)
| BadIndex (ty : string)           (* TypeError of [v[key]] with a str key *)
| LibraryError (msg : string).     (* raised inside a library call; [msg] is [str(e)] *)

(** [str(e)].  The interpreter's own messages are worded as CPython 3.12
    words them; no statement below rests on that wording. *)
Definition str_exn (e : exn) : string :=
  match e with
  | KeyError key => "'" ++ key ++ "'"
  | NoAttribute ty attr => "'" ++ ty ++ "' object has no attribute '" ++ attr ++ "'"
  | NotIterable ty => "'" ++ ty ++ "' object is not iterable"
  | NotContainer ty => "argument of type '" ++ ty ++ "' is not iterable"
  | BadIndex ty =>
      if String.eqb ty "list" then "list indices must be integers or slices, not str"
      else if String.eqb ty "str" then "string indices must be integers, not 'str'"
      else "'" ++ ty ++ "' object is not subscriptable"
  | LibraryError msg => msg
  end.

(** The result of an expression that may raise. *)
Inductive outcome (A : Type) : Type :=
| Ok (a : A)
| Raise (e : exn).
Arguments Ok {A} a.
Arguments Raise {A} e.

Definition obind {A B : Type} (o : outcome A) (k : A -> outcome B) : outcome B :=
  match o with
  | Ok a => k a
  | Raise e => Raise e
  end.

Declare Scope outcome_scope.
Delimit Scope outcome_scope with outcome.
Notation "'let?' x ':=' c 'in' k" := (obind c (fun x => k))
  (at level 10, x name, c at level 100, k at level 200) : outcome_scope.
Local Open Scope outcome_scope.

(** *** The dynamic operations the script uses *)

(** [substring_in needle hay]: [needle in hay] on two strings. *)
Fixpoint substring_in (needle hay : string) : bool :=
  String.prefix needle hay
  || match hay with
     | EmptyString => false
     | String _ rest => substring_in needle rest
     end.

Definition is_str (key : string) (v : pyval) : bool :=
  match v with
  | PStr s => String.eqb key s
  | _ => false
  end.

(** [key in v] for a string [key]. *)
Definition py_in (key : string) (v : pyval) : outcome bool :=
  match v with
  | PDict entries => Ok (dict_has key entries)
  | PList items => Ok (existsb (is_str key) items)
  | PStr s => Ok (substring_in key s)
  | _ => Raise (NotContainer (type_name v))
  end.

(** [v[key]] for a string [key]. *)
Definition py_item (v : pyval) (key : string) : outcome pyval :=
  match v with
  | PDict entries =>
      match dict_get key entries with
      | Some x => Ok x
      | None => Raise (KeyError key)
      end
  | _ => Raise (BadIndex (type_name v))
  end.

(** [v.get(key, default)]. *)
Definition py_get (v : pyval) (key : string) (default : pyval) : outcome pyval :=
  match v with
  | PDict entries =>
      match dict_get key entries with
      | Some x => Ok x
      | None => Ok default
      end
  | _ => Raise (NoAttribute (type_name v) "get")
  end.

Fixpoint chars (s : string) : list pyval :=
  match s with
  | EmptyString => []
  | String c rest => PStr (String c EmptyString) :: chars rest
  end.

(** The items [for element in v] runs through. *)
Definition py_iter (v : pyval) : outcome (list pyval) :=
  match v with
  | PList items => Ok items
  | PDict entries => Ok (map PStr (dict_keys [] entries))
  | PStr s => Ok (chars s)
  | _ => Raise (NotIterable (type_name v))
  end.

(** ** What a run of the script leaves behind *)

(** A turn of the conversation is the pair [(role, message)] the script
    appends: the role is ["user"] or ["ai"]. *)
Definition turn : Type := string * string.

(** The dict [get_nearby_hospitals] builds for an element. *)
Record hospital : Type := {
  name : pyval;
  phone : pyval;
  lat : pyval;
  lon : pyval;
  address : pyval
}.

(** An f-string before its numbers are printed. *)
Inductive piece : Type :=
| Lit (s : string)
| Num (z : Z)
| Flt (f : spec_float).

(** The trace of a run: the calls that leave the process and the
    [st.error] notices, in the order the script makes them.  The rest of
    the page (titles, markdown, info boxes, the map) feeds nothing back
    into the script and is not recorded. *)
Inductive event : Type :=
| Configure (api_key : string)            (* genai.configure *)
| NewModel (model_name : string)          (* genai.GenerativeModel *)
| Generate (prompt : string)              (* model.generate_content *)
| ListModels                              (* genai.list_models *)
| Post (url : string) (data : list piece) (* requests.post *)
| StError (msg : string).                 (* st.error *)

Record run_state : Type := {
  conversation : option (list turn);   (* st.session_state.conversation, when set *)
  trace : list event
}.

(** How a block of statements ends: it falls through with a value, it
    raises an [Exception], or the script is left by [return] or by
    [st.rerun()].  The latter raises streamlit's [RerunException], a
    [BaseException] that an [except Exception] clause lets through. *)
Inductive ending (A : Type) : Type :=
| Normal (a : A)
| Raised (e : exn)
| Returned
| Rerun.
Arguments Normal {A} a.
Arguments Raised {A} e.
Arguments Returned {A}.
Arguments Rerun {A}.

Definition script (A : Type) : Type := run_state -> ending A * run_state.

Definition ret {A : Type} (a : A) : script A := fun s => (Normal a, s).

Definition bind {A B : Type} (m : script A) (k : A -> script B) : script B :=
  fun s =>
    match m s with
    | (Normal a, s') => k a s'
    | (Raised e, s') => (Raised e, s')
    | (Returned, s') => (Returned, s')
    | (Rerun, s') => (Rerun, s')
    end.

Declare Scope script_scope.
Delimit Scope script_scope with script.
Notation "x <- c ;; k" := (bind c (fun x => k))
  (at level 100, c at next level, right associativity) : script_scope.
Notation "c ;; k" := (bind c (fun _ => k))
  (at level 100, right associativity) : script_scope.
Local Open Scope script_scope.

Definition raise {A : Type} (e : exn) : script A := fun s => (Raised e, s).
Definition return_ {A : Type} : script A := fun s => (Returned, s).
Definition st_rerun {A : Type} : script A := fun s => (Rerun, s).

(** An expression evaluated inside the script. *)
Definition eval {A : Type} (o : outcome A) : script A :=
  match o with
  | Ok a => ret a
  | Raise e => raise e
  end.

(** [try: body except Exception as e: handler e]. *)
Definition try_except {A : Type} (body : script A) (handler : exn -> script A) : script A :=
  fun s =>
    match body s with
    | (Raised e, s') => handler e s'
    | r => r
    end.

Definition emit (ev : event) : script unit :=
  fun s => (Normal tt, {| conversation := conversation s; trace := (trace s ++ [ev])%list |}).

(** A call to a library: the call is recorded, then its result (taken
    from the [world]) is the value or the exception of the expression. *)
Definition call {A : Type} (ev : event) (result : outcome A) : script A :=
  emit ev ;; eval result.

Definition st_error (msg : string) : script unit := emit (StError msg).

(** [if "conversation" not in st.session_state: st.session_state.conversation = []] *)
Definition init_conversation : script unit :=
  fun s =>
    match conversation s with
    | Some _ => (Normal tt, s)
    | None => (Normal tt, {| conversation := Some []; trace := trace s |})
    end.

(** [st.session_state.conversation]; the script sets the store before it
    reads it, so the second branch is not reached from [main]. *)
Definition get_conversation : script (list turn) :=
  fun s =>
    match conversation s with
    | Some c => (Normal c, s)
    | None => (Raised (NoAttribute "SessionStateProxy" "conversation"), s)
    end.

(** [st.session_state.conversation.append(t)] *)
Definition append_turn (t : turn) : script unit :=
  c <- get_conversation ;;
  fun s => (Normal tt, {| conversation := Some (c ++ [t])%list; trace := trace s |}).

(** The turns of the store, none when it has not been set yet. *)
Definition turns (s : run_state) : list turn :=
  match conversation s with
  | Some c => c
  | None => []
  end.

(** ** The libraries, as one run of the script sees them *)

(** The object [model.generate_content] returns; reading [.text] may raise. *)
Record gen_response : Type := { text : outcome string }.

(** The object [genai.GenerativeModel(name)] returns. *)
Record model : Type := { generate_content : string -> outcome gen_response }.

(** The object [requests.post] returns; [.json()] raises on a body that
    is not JSON. *)
Record http_response : Type := { json : outcome pyval }.

(** The results of the library calls of one run.  What the library
    keeps from one call to the next (the key given to [genai.configure])
    is part of the world chosen, not of the record. *)
Record world : Type := {
  genai_configure : string -> outcome unit;
  genai_GenerativeModel : string -> outcome model;
  genai_list_models : outcome (list string);   (* the names of the models listed *)
  requests_post : string -> list piece -> outcome http_response
}.

Inductive button : Type :=
| ListAvailableModels
| Send
| FindNearbyHospitals.

(** The widgets of the page.  A run of the script is started by at most
    one click, and [st.button] answers [True] for that button only. *)
Record surface : Type := {
  api_key_input : string;         (* st.text_input, password *)
  model_select : string;          (* st.selectbox *)
  latitude_input : spec_float;    (* st.number_input *)
  longitude_input : spec_float;   (* st.number_input *)
  slider : Z -> Z -> Z -> Z;      (* st.slider(label, min_value, max_value, value) *)
  symptoms_input : string;        (* st.text_area *)
  clicked : option button
}.

Definition st_button (ui : surface) (b : button) : bool :=
  match clicked ui, b with
  | Some ListAvailableModels, ListAvailableModels => true
  | Some Send, Send => true
  | Some FindNearbyHospitals, FindNearbyHospitals => true
  | _, _ => false
  end.

(** Truth value of a [str] and of a [float]. *)
Definition nonempty (s : string) : bool :=
  match s with
  | EmptyString => false
  | String _ _ => true
  end.

Definition nonzero (f : spec_float) : bool :=
  match f with
  | S754_zero _ => false
  | _ => true
  end.

(** ** The functions of [ai_doc.py] *)

Definition configure_genai (w : world) (api_key : string) : script unit :=
  call (Configure api_key) (genai_configure w api_key).

Definition full_prompt (user_input conversation_history : string) : string :=
  String.concat nl
    [ "";
      "    You are an AI medical assistant. You can provide general medical information and suggestions, ";
      "    but you should always clarify that you're not a licensed medical professional and your advice ";
      "    should not replace professional medical consultation.";
      "    ";
      "    Based on the following symptoms, provide:";
      "    1. Possible causes";
      "    2. Recommended next steps";
      "    3. When they should seek immediate medical attention";
      "    ";
      "    User's symptoms: " ++ user_input;
      "    ";
      "    Previous conversation for context:";
      "    " ++ conversation_history;
      "    " ].

Definition get_ai_response (user_input conversation_history : string) (m : model)
  : script string :=
  let full_prompt := full_prompt user_input conversation_history in
  try_except
    (response <- call (Generate full_prompt) (generate_content m full_prompt) ;;
     eval (text response))
    (fun e => ret ("Error generating response: " ++ str_exn e)).

Definition overpass_url : string := "https://overpass-api.de/api/interpreter".

Definition overpass_query (latitude longitude : spec_float) (radius : Z) : list piece :=
  [ Lit (nl ++ "    [out:json];" ++ nl
         ++ "    node[" ++ dq ++ "amenity" ++ dq ++ "=" ++ dq ++ "hospital" ++ dq
         ++ "](around:");
    Num radius; Lit ","; Flt latitude; Lit ","; Flt longitude;
    Lit (");" ++ nl ++ "    out body;" ++ nl ++ "    ") ].

(** [if "tags" in element and "name" in element["tags"]] *)
Definition has_name (element : pyval) : outcome bool :=
  let? tagged := py_in "tags" element in
  if tagged then
    let? tags := py_item element "tags" in
    py_in "name" tags
  else Ok false.

(** The dict display of lines 53 to 59, its values computed in order. *)
Definition hospital_of (element : pyval) : outcome hospital :=
  let? tags := py_item element "tags" in
  let? name := py_get tags "name" (PStr "Unnamed Hospital") in
  let? tags := py_item element "tags" in
  let? phone := py_get tags "phone" (PStr "N/A") in
  let? lat := py_item element "lat" in
  let? lon := py_item element "lon" in
  let? tags := py_item element "tags" in
  let? address := py_get tags "addr:full" (PStr "Address not available") in
  Ok {| name := name; phone := phone; lat := lat; lon := lon; address := address |}.

(** The loop over the elements, [hospitals] being the list built so far. *)
Fixpoint for_elements (elements : list pyval) (hospitals : list hospital)
  : outcome (list hospital) :=
  match elements with
  | [] => Ok hospitals
  | element :: rest =>
      let? named := has_name element in
      if named then
        let? h := hospital_of element in
        for_elements rest (hospitals ++ [h])%list
      else for_elements rest hospitals
  end.

Definition get_nearby_hospitals (w : world) (latitude longitude : spec_float) (radius : Z)
  : script (list hospital) :=
  let overpass_query := overpass_query latitude longitude radius in
  try_except
    (response <- call (Post overpass_url overpass_query)
                      (requests_post w overpass_url overpass_query) ;;
     data <- eval (json response) ;;
     elements <- eval (let? found := py_get data "elements" (PList []) in py_iter found) ;;
     eval (for_elements elements []))
    (fun e =>
       st_error ("Error fetching hospital data: " ++ str_exn e) ;;
       ret []).

Definition list_available_models (w : world) : script (list string) :=
  try_except
    (call ListModels (genai_list_models w))
    (fun e => ret ["Error listing models: " ++ str_exn e]).

(** [conversation[:-1]] *)
Definition all_but_last {A : Type} (l : list A) : list A :=
  firstn (length l - 1)%nat l.

(** [f"{'User' if role == 'user' else 'AI'}: {msg}"] *)
Definition context_line (t : turn) : string :=
  let (role, msg) := t in
  (if String.eqb role "user" then "User" else "AI") ++ ": " ++ msg.

(** Line 146: the context handed to the model, the latest turn left out. *)
Definition conversation_context (conversation : list turn) : string :=
  String.concat nl (map context_line (all_but_last conversation)).

(** The script.  What it draws with the hospitals found (lines 170 to
    203: the map of folium, the list, the notice that none was found)
    adds nothing to the store or to the trace and is left out of
    [main], and with it the exception folium may end such a run with;
    [hospital_list] below gives the list of lines 193 to 201. *)
Definition main (w : world) (ui : surface) : script unit :=
  let api_key := api_key_input ui in
  let model_name := model_select ui in
  let latitude := latitude_input ui in
  let longitude := longitude_input ui in
  let radius := slider ui 1000 10000 5000 in
  (if nonempty api_key then
     if st_button ui ListAvailableModels then
       configure_genai w api_key ;;
       available_models <- list_available_models w ;;
       ret tt
     else ret tt
   else ret tt) ;;
  init_conversation ;;
  let user_input := symptoms_input ui in
  (if st_button ui Send then
     (if negb (nonempty api_key) then
        st_error "Please enter your Gemini API Key in the sidebar." ;;
        return_
      else ret tt) ;;
     if nonempty user_input then
       append_turn ("user", user_input) ;;
       try_except
         (configure_genai w api_key ;;
          m <- call (NewModel model_name) (genai_GenerativeModel w model_name) ;;
          conversation <- get_conversation ;;
          let conversation_context := conversation_context conversation in
          response <- get_ai_response user_input conversation_context m ;;
          append_turn ("ai", response) ;;
          st_rerun)
         (fun e =>
            let error_message := "Error: " ++ str_exn e in
            append_turn ("ai", error_message) ;;
            st_error error_message)
     else ret tt
   else ret tt) ;;
  (if st_button ui FindNearbyHospitals then
     if nonzero latitude && nonzero longitude then
       hospitals <- get_nearby_hospitals w latitude longitude radius ;;
       ret tt
     else st_error "Please enter valid latitude and longitude."
   else ret tt).

(** ** One action of the user *)

(** The same page with no button clicked: what the script sees when it
    runs again after [st.rerun()]. *)
Definition no_click (ui : surface) : surface :=
  {| api_key_input := api_key_input ui;
     model_select := model_select ui;
     latitude_input := latitude_input ui;
     longitude_input := longitude_input ui;
     slider := slider ui;
     symptoms_input := symptoms_input ui;
     clicked := None |}.

(** A click runs the script once; a run that ends in [st.rerun()] is
    followed by a second run of the unclicked page over the same session
    state. *)
Definition act (w : world) (ui : surface) (s : run_state) : ending unit * run_state :=
  match main w ui s with
  | (Rerun, s') => main w (no_click ui) s'
  | r => r
  end.

(** A session: the actions of the user one after the other. *)
Fixpoint session (actions : list (world * surface)) (s : run_state) : run_state :=
  match actions with
  | [] => s
  | (w, ui) :: rest => session rest (snd (act w ui s))
  end.

(** A Send click with a key and a text. *)
Definition is_send (a : world * surface) : Prop :=
  clicked (snd a) = Some Send
  /\ nonempty (api_key_input (snd a)) = true
  /\ nonempty (symptoms_input (snd a)) = true.

Definition count_role (role : string) (c : list turn) : nat :=
  length (filter (fun t => String.eqb (fst t) role) c).

(** The user turn and the assistant turn of each action, in order. *)
Fixpoint exchanges (actions : list (world * surface)) (replies : list string) : list turn :=
  match actions, replies with
  | (_, ui) :: actions', reply :: replies' =>
      ("user", symptoms_input ui) :: ("ai", reply) :: exchanges actions' replies'
  | _, _ => []
  end.

(** The state after the script has added [evs] to the trace. *)
Definition logged (s : run_state) (evs : list event) : run_state :=
  {| conversation := conversation s; trace := (trace s ++ evs)%list |}.

(** The calls that leave the process. *)
Definition is_call (ev : event) : bool :=
  match ev with
  | StError _ => false
  | _ => true
  end.

(** ** Shapes of the response of the geodata API *)

(** The element has a tags object with a ["name"] key. *)
Definition named (element : pyval) : bool :=
  match element with
  | PDict entries =>
      match dict_get "tags" entries with
      | Some (PDict tags) => dict_has "name" tags
      | _ => false
      end
  | _ => false
  end.

(** The element has the shape of the API's elements: an object whose
    ["tags"], when present, is an object. *)
Definition element_shaped (element : pyval) : bool :=
  match element with
  | PDict entries =>
      match dict_get "tags" entries with
      | Some (PDict _) | None => true
      | Some _ => false
      end
  | _ => false
  end.

(** The element carries both coordinates. *)
Definition located (element : pyval) : bool :=
  match element with
  | PDict entries => dict_has "lat" entries && dict_has "lon" entries
  | _ => false
  end.

Definition tag_or (element : pyval) (key : string) (default : string) : pyval :=
  match element with
  | PDict entries =>
      match dict_get "tags" entries with
      | Some (PDict tags) =>
          match dict_get key tags with
          | Some v => v
          | None => PStr default
          end
      | _ => PStr default
      end
  | _ => PStr default
  end.

Definition field_or_none (element : pyval) (key : string) : pyval :=
  match element with
  | PDict entries =>
      match dict_get key entries with
      | Some v => v
      | None => PNone
      end
  | _ => PNone
  end.

(** The record the specification describes for a named element. *)
Definition spec_record (element : pyval) : hospital :=
  {| name := tag_or element "name" "Unnamed Hospital";
     phone := tag_or element "phone" "N/A";
     lat := field_or_none element "lat";
     lon := field_or_none element "lon";
     address := tag_or element "addr:full" "Address not available" |}.

(** ** Sample worlds and pages *)

Definition sample_model (answer : outcome gen_response) : model :=
  {| generate_content := fun _ => answer |}.

Definition sample_world (configured : outcome unit) (made : outcome model)
  (posted : outcome http_response) : world :=
  {| genai_configure := fun _ => configured;
     genai_GenerativeModel := fun _ => made;
     genai_list_models := Ok ["models/gemini-1.5-pro"];
     requests_post := fun _ _ => posted |}.

(** A world in which the geodata request is answered with [data]. *)
Definition answering (data : pyval) : world :=
  sample_world (Ok tt) (Ok (sample_model (Ok {| text := Ok "Rest and fluids." |})))
    (Ok {| json := Ok data |}).

(** 40.0 and -120.0 *)
Definition sample_latitude : spec_float := S754_finite false 5 3.
Definition sample_longitude : spec_float := S754_finite true 15 3.

Definition sample_page (key text : string) (pressed : option button) : surface :=
  {| api_key_input := key;
     model_select := "gemini-1.5-pro";
     latitude_input := sample_latitude;
     longitude_input := sample_longitude;
     slider := fun lo hi value => Z.max lo (Z.min hi value);
     symptoms_input := text;
     clicked := pressed |}.

Definition first_run : run_state := {| conversation := None; trace := [] |}.

Definition general_hospital : pyval :=
  PDict [("type", PStr "node");
         ("lat", PFloat sample_latitude);
         ("lon", PFloat sample_longitude);
         ("tags", PDict [("amenity", PStr "hospital"); ("name", PStr "General Hospital")])].

Definition unnamed_clinic : pyval :=
  PDict [("type", PStr "node");
         ("lat", PFloat sample_latitude);
         ("lon", PFloat sample_longitude);
         ("tags", PDict [("amenity", PStr "hospital")])].

Definition hospital_without_coordinates : pyval :=
  PDict [("type", PStr "node");
         ("tags", PDict [("amenity", PStr "hospital"); ("name", PStr "Saint Mary")])].

(** A page whose slider stands at the position [raw] when that lies
    within the bounds it is declared with, and at its default value
    otherwise. *)
Definition page_with_slider (raw : Z) (pressed : option button) : surface :=
  {| api_key_input := "";
     model_select := "gemini-1.5-pro";
     latitude_input := sample_latitude;
     longitude_input := sample_longitude;
     slider := fun lo hi value => if (lo <=? raw) && (raw <=? hi) then raw else value;
     symptoms_input := "";
     clicked := pressed |}.


(** Three Send clicks: the model answers, the generation call raises,
    the model cannot be made. *)
Definition sample_sends : list (world * surface) :=
  [ (answering PNone, sample_page "secret" "fever" (Some Send));
    (sample_world (Ok tt)
       (Ok (sample_model (Raise (LibraryError "429 quota exceeded"))))
       (Raise (LibraryError "unused")),
     sample_page "secret" "cough" (Some Send));
    (sample_world (Ok tt) (Raise (LibraryError "unknown model"))
       (Raise (LibraryError "unused")),
     sample_page "secret" "headache" (Some Send)) ].

(** ** The rest of the page *)

(** The click is a Send with a key and a text: the one case in which the
    script reaches line 136. *)
Definition ready_to_send (ui : surface) : bool :=
  match clicked ui with
  | Some Send => nonempty (api_key_input ui) && nonempty (symptoms_input ui)
  | _ => false
  end.

(** The store is a sequence of exchanges: a ["user"] turn, then an
    ["ai"] turn, and so on. *)
Fixpoint alternating (c : list turn) : bool :=
  match c with
  | [] => true
  | (asker, _) :: (answerer, _) :: rest =>
      String.eqb asker "user" && String.eqb answerer "ai" && alternating rest
  | _ => false
  end.

(** The calls to [genai]. *)
Definition is_genai_call (ev : event) : bool :=
  match ev with
  | Configure _ | NewModel _ | Generate _ | ListModels => true
  | Post _ _ | StError _ => false
  end.

(** The whole store serialized as line 146 serializes its turns. *)
Definition context_of (c : list turn) : string :=
  String.concat nl (map context_line c).

(** *** The list of hospitals, lines 193 to 201 *)

(** An f-string of the page before its values are printed. *)
Inductive fragment : Type :=
| Text (s : string)
| Position (n : nat)
| Val (v : pyval).

(** The two pictographs of the list, as their UTF-8 bytes. *)
Definition telephone_sign : string :=
  String "240"%char (String "159"%char (String "147"%char (String "158"%char EmptyString))).
Definition pin_sign : string :=
  String "240"%char (String "159"%char (String "147"%char (String "141"%char EmptyString))).

(** [v != s] for a string [s]. *)
Definition differs_from (v : pyval) (s : string) : bool := negb (is_str s v).

(** The [st.markdown] calls of one pass of the loop, [i] being the index
    [enumerate] gives. *)
Definition list_entry (i : nat) (h : hospital) : list (list fragment) :=
  ([ [ Text (nl ++ "                    **"); Position (i + 1); Text ". "; Val (name h);
       Text ("**  " ++ nl ++ "                    " ++ telephone_sign ++ " "); Val (phone h);
       Text ("  " ++ nl ++ "                    " ++ pin_sign ++ " "); Val (address h);
       Text ("  " ++ nl ++ "                    ") ] ]
   ++ (if differs_from (phone h) "N/A"
       then [ [ Text "[Call Hospital](tel:"; Val (phone h); Text ")" ] ]
       else [])
   ++ [ [ Text "---" ] ])%list.

Fixpoint hospital_list_from (i : nat) (hospitals : list hospital) : list (list fragment) :=
  match hospitals with
  | [] => []
  | h :: rest => (list_entry i h ++ hospital_list_from (S i) rest)%list
  end.

Definition hospital_list (hospitals : list hospital) : list (list fragment) :=
  hospital_list_from 0 hospitals.

(** The markdown is the link of line 200, and the phone it dials. *)
Definition call_link (markdown : list fragment) : option pyval :=
  match markdown with
  | [Text label; Val number; Text _] =>
      if String.eqb label "[Call Hospital](tel:" then Some number else None
  | _ => None
  end.

Fixpoint call_links (page : list (list fragment)) : list pyval :=
  match page with
  | [] => []
  | markdown :: rest =>
      match call_link markdown with
      | Some number => number :: call_links rest
      | None => call_links rest
      end
  end.

(** The element has a tags object with the key. *)
Definition has_tag (key : string) (element : pyval) : bool :=
  match element with
  | PDict entries =>
      match dict_get "tags" entries with
      | Some (PDict tags) => dict_has key tags
      | _ => false
      end
  | _ => false
  end.

(** *** The assistant turn of a Send *)

(** The text the assistant turn of a Send is to hold, [prior] being the
    turns of the store before the click: the reply text of the model,
    or the error string.  The error string is "Error generating
    response: " and the message when the generation call or the reading
    of its text raises, and "Error: " and the message when the model
    library cannot be configured or the model cannot be made. *)
Definition assistant_text (w : world) (ui : surface) (prior : list turn) : string :=
  match genai_configure w (api_key_input ui) with
  | Raise e => "Error: " ++ str_exn e
  | Ok _ =>
      match genai_GenerativeModel w (model_select ui) with
      | Raise e => "Error: " ++ str_exn e
      | Ok m =>
          match generate_content m (full_prompt (symptoms_input ui) (context_of prior)) with
          | Raise e => "Error generating response: " ++ str_exn e
          | Ok response =>
              match text response with
              | Ok reply => reply
              | Raise e => "Error generating response: " ++ str_exn e
              end
          end
      end
  end.

(** The assistant texts of a sequence of Sends, each computed on the
    store its click finds. *)
Fixpoint replies_of (actions : list (world * surface)) (prior : list turn) : list string :=
  match actions with
  | [] => []
  | (w, ui) :: rest =>
      let reply := assistant_text w ui prior in
      reply :: replies_of rest (prior ++ [("user", symptoms_input ui); ("ai", reply)])%list
  end.

(** * Properties *)

(** ** The script monad *)

Ltac unfold_script :=
  unfold call, st_error, emit, eval, try_except, bind, ret, raise, return_, st_rerun,
    logged in *.

Lemma all_but_last_snoc {A : Type} (l : list A) (x : A) :
  all_but_last (l ++ [x])%list = l.
Proof.
  unfold all_but_last. rewrite length_app. simpl.
  replace (length l + 1 - 1)%nat with (length l) by lia.
  rewrite firstn_app, Nat.sub_diag, firstn_all. simpl.
  apply app_nil_r.
Qed.

Lemma nonempty_true (s : string) : nonempty s = true -> s <> "".
Proof. destruct s; simpl; congruence. Qed.

(** ** Serializing the conversation for the prompt *)

(** C2: the context of line 146 leaves out the latest turn and joins the
    earlier ones, each as its speaker label, a colon and the text, with
    newlines between them; a ["user"] turn is labelled User and a turn
    of the assistant AI.  For the store of the three turns a, b, c the
    context is the two lines of a and b, and c does not occur in it. *)
Theorem C2_context_excludes_latest_turn :
  (forall (earlier : list turn) (latest : turn),
      conversation_context (earlier ++ [latest])%list
      = String.concat nl (map context_line earlier))
  /\ (forall msg, context_line ("user", msg) = "User: " ++ msg)
  /\ (forall msg, context_line ("ai", msg) = "AI: " ++ msg)
  /\ (forall role msg, role <> "user" -> context_line (role, msg) = "AI: " ++ msg)
  /\ conversation_context [("user", "a"); ("ai", "b"); ("user", "c")]
     = "User: a" ++ nl ++ "AI: b"
  /\ conversation_context [("user", "a"); ("assistant", "b"); ("user", "c")]
     = "User: a" ++ nl ++ "AI: b"
  /\ substring_in "c" (conversation_context [("user", "a"); ("ai", "b"); ("user", "c")])
     = false.
Proof.
  split; [| repeat split; try reflexivity].
  - intros earlier latest. unfold conversation_context.
    now rewrite all_but_last_snoc.
  - intros role msg Hrole. unfold context_line.
    destruct (String.eqb_spec role "user") as [Heq | _]; [contradiction | reflexivity].
Qed.

(** ** The assistant client *)

(** C8: when [generate_content] raises an exception whose message is
    [m], [get_ai_response] ends normally with the string
    "Error generating response: " followed by [m]; and on every input it
    ends normally with a string, whatever the model does. *)
Theorem C8_generation_error_is_returned_as_text
  (user_input history : string) (m : model) (s : run_state) (e : exn) (msg : string) :
  generate_content m (full_prompt user_input history) = Raise e ->
  str_exn e = msg ->
  get_ai_response user_input history m s
  = (Normal ("Error generating response: " ++ msg),
     logged s [Generate (full_prompt user_input history)])
  /\ (forall (m' : model) (s' : run_state),
        exists reply : string,
          get_ai_response user_input history m' s'
          = (Normal reply, logged s' [Generate (full_prompt user_input history)])).
Proof.
  intros Hraise Hmsg. split.
  - unfold get_ai_response. unfold_script. rewrite Hraise, Hmsg. reflexivity.
  - intros m' s'. unfold get_ai_response. unfold_script.
    destruct (generate_content m' _) as [response | e'].
    + destruct (text response) as [reply | e'']; eexists; reflexivity.
    + eexists; reflexivity.
Qed.

(** A model out of quota. *)
Lemma C8_witness :
  let m := {| generate_content := fun _ => Raise (LibraryError "429 quota exceeded") |} in
  let s := {| conversation := Some [("user", "fever")]; trace := [] |} in
  fst (get_ai_response "fever" "" m s)
  = Normal "Error generating response: 429 quota exceeded".
Proof.
  intros m s.
  exact (f_equal fst
           (proj1 (C8_generation_error_is_returned_as_text
                     "fever" "" m s (LibraryError "429 quota exceeded")
                     "429 quota exceeded" eq_refl eq_refl))).
Defined.

(** ** The hospital finder *)

Lemma has_name_shaped (element : pyval) :
  element_shaped element = true -> has_name element = Ok (named element).
Proof.
  destruct element as [| | | | | |entries]; simpl; try discriminate.
  unfold has_name, py_in, py_item, obind, dict_has.
  destruct (dict_get "tags" entries) as [[| | | | | |tags]|];
    try discriminate; reflexivity.
Qed.

Lemma has_name_named (element : pyval) :
  named element = true -> has_name element = Ok true.
Proof.
  intros Hnamed. rewrite has_name_shaped, Hnamed; [reflexivity|].
  destruct element as [| | | | | |entries]; simpl in *; try discriminate.
  destruct (dict_get "tags" entries) as [[| | | | | |tags]|]; try discriminate; reflexivity.
Qed.

(** The record of a tagged element: the first missing coordinate raises. *)
Lemma hospital_of_tagged (entries tags : list (string * pyval)) :
  dict_get "tags" entries = Some (PDict tags) ->
  hospital_of (PDict entries)
  = match dict_get "lat" entries, dict_get "lon" entries with
    | Some _, Some _ => Ok (spec_record (PDict entries))
    | None, _ => Raise (KeyError "lat")
    | Some _, None => Raise (KeyError "lon")
    end.
Proof.
  intros Htags. unfold hospital_of, spec_record, tag_or, field_or_none. simpl.
  rewrite Htags. simpl.
  destruct (dict_get "name" tags), (dict_get "phone" tags),
    (dict_get "lat" entries), (dict_get "lon" entries),
    (dict_get "addr:full" tags); reflexivity.
Qed.

Lemma hospital_of_unlocated (element : pyval) :
  named element = true -> located element = false ->
  exists e, hospital_of element = Raise e.
Proof.
  destruct element as [| | | | | |entries]; simpl; try discriminate.
  destruct (dict_get "tags" entries) as [[| | | | | |tags]|] eqn:Htags; try discriminate.
  intros _ Hloc. rewrite (hospital_of_tagged _ _ Htags).
  unfold dict_has in Hloc.
  destruct (dict_get "lat" entries), (dict_get "lon" entries);
    try discriminate; eexists; reflexivity.
Qed.

Lemma hospital_of_located (element : pyval) :
  named element = true -> located element = true ->
  hospital_of element = Ok (spec_record element).
Proof.
  destruct element as [| | | | | |entries]; simpl; try discriminate.
  destruct (dict_get "tags" entries) as [[| | | | | |tags]|] eqn:Htags; try discriminate.
  intros _ Hloc. rewrite (hospital_of_tagged _ _ Htags).
  unfold dict_has in Hloc.
  destruct (dict_get "lat" entries), (dict_get "lon" entries);
    try discriminate; reflexivity.
Qed.

(** One named element without a coordinate makes the whole loop raise,
    whatever was collected before it. *)
Lemma for_elements_unlocated (elements : list pyval) (element : pyval) :
  In element elements -> named element = true -> located element = false ->
  forall hospitals, exists e, for_elements elements hospitals = Raise e.
Proof.
  intros Hin Hnamed Hloc.
  induction elements as [|first rest IH]; [contradiction|].
  intros hospitals. simpl.
  destruct Hin as [-> | Hin].
  - rewrite (has_name_named _ Hnamed). simpl.
    destruct (hospital_of_unlocated _ Hnamed Hloc) as [e ->]. simpl. now exists e.
  - destruct (has_name first) as [[|]|e]; simpl.
    + destruct (hospital_of first) as [h|e]; simpl; [apply (IH Hin) | now exists e].
    + apply (IH Hin).
    + now exists e.
Qed.

(** On well-shaped elements that carry their coordinates the loop keeps
    the named ones, in order. *)
Lemma for_elements_located (elements : list pyval) :
  forallb element_shaped elements = true ->
  forallb (fun element => implb (named element) (located element)) elements = true ->
  forall hospitals,
    for_elements elements hospitals
    = Ok (hospitals ++ map spec_record (filter named elements))%list.
Proof.
  induction elements as [|first rest IH]; simpl; intros Hshape Hloc hospitals.
  - now rewrite app_nil_r.
  - apply andb_prop in Hshape as [Hfirst Hshape].
    apply andb_prop in Hloc as [Hlfirst Hloc].
    rewrite (has_name_shaped _ Hfirst).
    destruct (named first) eqn:Hnamed; simpl in *.
    + rewrite (hospital_of_located _ Hnamed Hlfirst). simpl.
      rewrite (IH Hshape Hloc). now rewrite <- app_assoc.
    + apply (IH Hshape Hloc).
Qed.

(** What [get_nearby_hospitals] does once the request has been answered
    with a JSON value. *)
Lemma get_nearby_hospitals_answered
  (w : world) (latitude longitude : spec_float) (radius : Z) (s : run_state)
  (response : http_response) (data : pyval) :
  requests_post w overpass_url (overpass_query latitude longitude radius) = Ok response ->
  json response = Ok data ->
  get_nearby_hospitals w latitude longitude radius s
  = match (let? found := py_get data "elements" (PList []) in
           let? elements := py_iter found in
           for_elements elements []) with
    | Ok hospitals =>
        (Normal hospitals, logged s [Post overpass_url (overpass_query latitude longitude radius)])
    | Raise e =>
        (Normal [],
         logged s [Post overpass_url (overpass_query latitude longitude radius);
                   StError ("Error fetching hospital data: " ++ str_exn e)])
    end.
Proof.
  intros Hpost Hjson. unfold get_nearby_hospitals. unfold_script.
  rewrite Hpost. simpl. rewrite Hjson. simpl.
  destruct (py_get data "elements" (PList [])) as [found|e]; simpl.
  - destruct (py_iter found) as [elements|e]; simpl.
    + destruct (for_elements elements []) as [hospitals|e]; simpl; [reflexivity|].
      now rewrite <- app_assoc.
    + now rewrite <- app_assoc.
  - now rewrite <- app_assoc.
Qed.

(** C3, refuted as stated: a response of two elements, one named and one
    unnamed, where the named one carries no coordinates, yields no record
    at all instead of one. *)
Lemma C3_named_element_without_coordinates_yields_nothing :
  let elements := [hospital_without_coordinates; unnamed_clinic] in
  map named elements = [true; false]
  /\ fst (get_nearby_hospitals (answering (PDict [("elements", PList elements)]))
            sample_latitude sample_longitude 5000 first_run)
     = Normal [].
Proof. split; reflexivity. Qed.

(** C3, amended: for every response whose elements have the shape of the
    API's elements and whose named elements all carry ["lat"] and
    ["lon"], the search returns one record per element that has a tags
    object with a ["name"] key, in the order of the response, and no
    record for an element without a name tag; nothing is displayed. *)
Theorem C3_one_record_per_named_element
  (w : world) (latitude longitude : spec_float) (radius : Z) (s : run_state)
  (response : http_response) (top : list (string * pyval)) (elements : list pyval) :
  requests_post w overpass_url (overpass_query latitude longitude radius) = Ok response ->
  json response = Ok (PDict top) ->
  py_get (PDict top) "elements" (PList []) = Ok (PList elements) ->
  forallb element_shaped elements = true ->
  forallb (fun element => implb (named element) (located element)) elements = true ->
  get_nearby_hospitals w latitude longitude radius s
  = (Normal (map spec_record (filter named elements)),
     logged s [Post overpass_url (overpass_query latitude longitude radius)])
  /\ length (map spec_record (filter named elements))
     = length (filter named elements).
Proof.
  intros Hpost Hjson Hget Hshape Hloc. split; [|apply length_map].
  rewrite (get_nearby_hospitals_answered _ _ _ _ _ _ _ Hpost Hjson).
  rewrite Hget. simpl.
  now rewrite (for_elements_located _ Hshape Hloc).
Qed.

(** A named and an unnamed element, both with coordinates. *)
Lemma C3_witness :
  fst (get_nearby_hospitals
         (answering (PDict [("elements", PList [general_hospital; unnamed_clinic])]))
         sample_latitude sample_longitude 5000 first_run)
  = Normal [ {| name := PStr "General Hospital";
                phone := PStr "N/A";
                lat := PFloat sample_latitude;
                lon := PFloat sample_longitude;
                address := PStr "Address not available" |} ].
Proof.
  exact (f_equal fst
           (proj1 (C3_one_record_per_named_element
                     (answering (PDict [("elements", PList [general_hospital; unnamed_clinic])]))
                     sample_latitude sample_longitude 5000 first_run
                     {| json := Ok (PDict [("elements", PList [general_hospital; unnamed_clinic])]) |}
                     [("elements", PList [general_hospital; unnamed_clinic])]
                     [general_hospital; unnamed_clinic]
                     eq_refl eq_refl eq_refl eq_refl eq_refl))).
Defined.

(** C4: an element with a name tag, no ["phone"] tag and no ["addr:full"]
    tag passes the name test, and the record built from it has the phone
    "N/A" and the address "Address not available", with the name, the
    latitude and the longitude of the element as they are; the record is
    built, and appended by the loop, whenever both coordinates are
    there. *)
Theorem C4_defaults_for_missing_phone_and_address
  (entries tags : list (string * pyval)) (n : pyval) :
  dict_get "tags" entries = Some (PDict tags) ->
  dict_get "name" tags = Some n ->
  dict_get "phone" tags = None ->
  dict_get "addr:full" tags = None ->
  has_name (PDict entries) = Ok true
  /\ (forall h : hospital,
        hospital_of (PDict entries) = Ok h ->
        phone h = PStr "N/A"
        /\ address h = PStr "Address not available"
        /\ name h = n
        /\ dict_get "lat" entries = Some (lat h)
        /\ dict_get "lon" entries = Some (lon h))
  /\ (forall la lo : pyval,
        dict_get "lat" entries = Some la ->
        dict_get "lon" entries = Some lo ->
        let built := {| name := n; phone := PStr "N/A"; lat := la; lon := lo;
                        address := PStr "Address not available" |} in
        hospital_of (PDict entries) = Ok built
        /\ forall rest hospitals,
             for_elements (PDict entries :: rest) hospitals
             = for_elements rest (hospitals ++ [built])%list).
Proof.
  intros Htags Hname Hphone Haddr.
  assert (Hnamed : named (PDict entries) = true).
  { simpl. rewrite Htags. unfold dict_has. now rewrite Hname. }
  assert (Hrec : forall la lo,
             dict_get "lat" entries = Some la -> dict_get "lon" entries = Some lo ->
             hospital_of (PDict entries)
             = Ok {| name := n; phone := PStr "N/A"; lat := la; lon := lo;
                     address := PStr "Address not available" |}).
  { intros la lo Hla Hlo. rewrite (hospital_of_tagged _ _ Htags), Hla, Hlo.
    unfold spec_record, tag_or, field_or_none.
    now rewrite Htags, Hname, Hphone, Haddr, Hla, Hlo. }
  split; [apply (has_name_named _ Hnamed)|]. split.
  - intros h Hh. rewrite (hospital_of_tagged _ _ Htags) in Hh.
    destruct (dict_get "lat" entries) as [la|] eqn:Hla; [|discriminate].
    destruct (dict_get "lon" entries) as [lo|] eqn:Hlo; [|discriminate].
    injection Hh as <-. unfold spec_record, tag_or, field_or_none. simpl.
    now rewrite Htags, Hname, Hphone, Haddr, Hla, Hlo.
  - intros la lo Hla Hlo built. split; [apply (Hrec la lo Hla Hlo)|].
    intros rest hospitals. simpl.
    rewrite (has_name_named _ Hnamed). simpl.
    now rewrite (Hrec la lo Hla Hlo).
Qed.

(** The record of [general_hospital]. *)
Lemma C4_witness :
  hospital_of general_hospital
  = Ok {| name := PStr "General Hospital";
          phone := PStr "N/A";
          lat := PFloat sample_latitude;
          lon := PFloat sample_longitude;
          address := PStr "Address not available" |}.
Proof.
  exact (proj1 (proj2 (proj2 (C4_defaults_for_missing_phone_and_address
           [("type", PStr "node");
            ("lat", PFloat sample_latitude);
            ("lon", PFloat sample_longitude);
            ("tags", PDict [("amenity", PStr "hospital"); ("name", PStr "General Hospital")])]
           [("amenity", PStr "hospital"); ("name", PStr "General Hospital")]
           (PStr "General Hospital") eq_refl eq_refl eq_refl eq_refl))
         (PFloat sample_latitude) (PFloat sample_longitude) eq_refl eq_refl)).
Defined.

(** What [get_nearby_hospitals] does when the request or the reading of
    its body raises. *)
Lemma get_nearby_hospitals_failed
  (w : world) (latitude longitude : spec_float) (radius : Z) (s : run_state) (e : exn) :
  requests_post w overpass_url (overpass_query latitude longitude radius) = Raise e
  \/ (exists response,
        requests_post w overpass_url (overpass_query latitude longitude radius) = Ok response
        /\ json response = Raise e) ->
  get_nearby_hospitals w latitude longitude radius s
  = (Normal [],
     logged s [Post overpass_url (overpass_query latitude longitude radius);
               StError ("Error fetching hospital data: " ++ str_exn e)]).
Proof.
  intros Hfail. unfold get_nearby_hospitals. unfold_script.
  destruct Hfail as [Hpost | [response [Hpost Hjson]]]; rewrite Hpost; simpl.
  - now rewrite <- app_assoc.
  - rewrite Hjson. simpl. now rewrite <- app_assoc.
Qed.

(** C6: when [requests.post] raises, or [response.json()] raises, the
    search displays the error and returns the empty list; a request that
    succeeds with no elements returns the same empty list, so the return
    value does not tell the two apart. *)
Theorem C6_failed_request_returns_empty_list
  (w : world) (latitude longitude : spec_float) (radius : Z) (s : run_state) (e : exn) :
  let query := overpass_query latitude longitude radius in
  requests_post w overpass_url query = Raise e
  \/ (exists response,
        requests_post w overpass_url query = Ok response /\ json response = Raise e) ->
  get_nearby_hospitals w latitude longitude radius s
  = (Normal [],
     logged s [Post overpass_url query;
               StError ("Error fetching hospital data: " ++ str_exn e)])
  /\ (forall (w' : world) (response : http_response) (data : pyval),
        requests_post w' overpass_url query = Ok response ->
        json response = Ok data ->
        py_get data "elements" (PList []) = Ok (PList []) ->
        fst (get_nearby_hospitals w' latitude longitude radius s)
        = fst (get_nearby_hospitals w latitude longitude radius s)).
Proof.
  intros query Hfail.
  assert (Hempty : get_nearby_hospitals w latitude longitude radius s
                   = (Normal [],
                      logged s [Post overpass_url query;
                                StError ("Error fetching hospital data: " ++ str_exn e)])).
  { apply get_nearby_hospitals_failed. exact Hfail. }
  split; [exact Hempty|].
  intros w' response data Hpost Hjson Hnone.
  rewrite Hempty, (get_nearby_hospitals_answered _ _ _ _ _ _ _ Hpost Hjson), Hnone.
  reflexivity.
Qed.

(** A refused connection against an answer without elements. *)
Lemma C6_witness :
  let down := sample_world (Ok tt) (Raise (LibraryError "unused"))
                (Raise (LibraryError "Connection refused")) in
  get_nearby_hospitals down sample_latitude sample_longitude 5000 first_run
  = (Normal [],
     logged first_run
       [Post overpass_url (overpass_query sample_latitude sample_longitude 5000);
        StError "Error fetching hospital data: Connection refused"])
  /\ fst (get_nearby_hospitals (answering (PDict [("elements", PList [])]))
            sample_latitude sample_longitude 5000 first_run)
     = fst (get_nearby_hospitals down sample_latitude sample_longitude 5000 first_run).
Proof.
  intros down.
  pose proof (C6_failed_request_returns_empty_list
                down sample_latitude sample_longitude 5000 first_run
                (LibraryError "Connection refused") (or_introl eq_refl)) as [Hfail Hsame].
  split; [exact Hfail|].
  exact (Hsame (answering (PDict [("elements", PList [])]))
               {| json := Ok (PDict [("elements", PList [])]) |}
               (PDict [("elements", PList [])]) eq_refl eq_refl eq_refl).
Defined.

(** C10: when some element of the response has a name tag and lacks
    ["lat"] or ["lon"], the search returns the empty list, not a partial
    one: the loop raises, the handler displays the error, and the
    records collected from the earlier elements are dropped. *)
Theorem C10_missing_coordinate_discards_all_records
  (w : world) (latitude longitude : spec_float) (radius : Z) (s : run_state)
  (response : http_response) (top : list (string * pyval))
  (elements : list pyval) (element : pyval) :
  let query := overpass_query latitude longitude radius in
  requests_post w overpass_url query = Ok response ->
  json response = Ok (PDict top) ->
  dict_get "elements" top = Some (PList elements) ->
  In element elements ->
  named element = true ->
  located element = false ->
  exists e : exn,
    for_elements elements [] = Raise e
    /\ get_nearby_hospitals w latitude longitude radius s
       = (Normal [],
          logged s [Post overpass_url query;
                    StError ("Error fetching hospital data: " ++ str_exn e)]).
Proof.
  intros query Hpost Hjson Helements Hin Hnamed Hloc.
  destruct (for_elements_unlocated _ _ Hin Hnamed Hloc []) as [e He].
  exists e. split; [exact He|].
  rewrite (get_nearby_hospitals_answered _ _ _ _ _ _ _ Hpost Hjson).
  simpl. rewrite Helements. simpl. now rewrite He.
Qed.

(** A good element followed by one without coordinates. *)
Lemma C10_witness :
  exists e : exn,
    for_elements [general_hospital; hospital_without_coordinates] [] = Raise e
    /\ get_nearby_hospitals
         (answering (PDict [("elements",
                             PList [general_hospital; hospital_without_coordinates])]))
         sample_latitude sample_longitude 5000 first_run
       = (Normal [],
          logged first_run
            [Post overpass_url (overpass_query sample_latitude sample_longitude 5000);
             StError ("Error fetching hospital data: " ++ str_exn e)]).
Proof.
  exact (C10_missing_coordinate_discards_all_records
           (answering (PDict [("elements",
                               PList [general_hospital; hospital_without_coordinates])]))
           sample_latitude sample_longitude 5000 first_run
           {| json := Ok (PDict [("elements",
                                  PList [general_hospital; hospital_without_coordinates])]) |}
           [("elements", PList [general_hospital; hospital_without_coordinates])]
           [general_hospital; hospital_without_coordinates]
           hospital_without_coordinates
           eq_refl eq_refl eq_refl (or_intror (or_introl eq_refl)) eq_refl eq_refl).
Defined.

(** The run of C10 on two elements: the first one alone would give a
    record, the second one has no ["lat"]. *)
Example missing_lat_after_a_good_element :
  for_elements [general_hospital] [] = Ok [spec_record general_hospital]
  /\ for_elements [general_hospital; hospital_without_coordinates] []
     = Raise (KeyError "lat")
  /\ get_nearby_hospitals
       (answering (PDict [("elements",
                           PList [general_hospital; hospital_without_coordinates])]))
       sample_latitude sample_longitude 5000 first_run
     = (Normal [],
        logged first_run
          [Post overpass_url (overpass_query sample_latitude sample_longitude 5000);
           StError "Error fetching hospital data: 'lat'"]).
Proof. repeat split; reflexivity. Qed.

(** ** The Send button *)

Ltac unfold_main :=
  unfold act, main, st_button, no_click, configure_genai, list_available_models,
    get_ai_response, append_turn, get_conversation, init_conversation, turns in *;
  unfold_script.

(** A run that no click started changes nothing but the missing store. *)
Lemma main_no_click (w : world) (ui : surface) (s : run_state) :
  clicked ui = None ->
  main w ui s = (Normal tt, {| conversation := Some (turns s); trace := trace s |}).
Proof.
  intros Hclick. destruct s as [[c|] tr]; unfold_main; rewrite Hclick;
    destruct (nonempty (api_key_input ui)); reflexivity.
Qed.

(** C5: a Send click with an empty API key ends the run at the [return]
    of line 132: the one thing added to the trace is the notice asking
    for the key, so no call leaves the process, and the turns of the
    store are the ones it had, whatever the text is. *)
Theorem C5_empty_key_blocks_send (w : world) (ui : surface) (s : run_state) :
  clicked ui = Some Send ->
  api_key_input ui = "" ->
  let after := act w ui s in
  fst after = Returned
  /\ after = main w ui s
  /\ turns (snd after) = turns s
  /\ trace (snd after)
     = (trace s ++ [StError "Please enter your Gemini API Key in the sidebar."])%list
  /\ (forall ev, In ev (trace (snd after)) -> is_call ev = true -> In ev (trace s)).
Proof.
  intros Hclick Hkey after. subst after.
  destruct s as [[c|] tr]; unfold_main; rewrite Hclick, Hkey; simpl;
    repeat split; try reflexivity.
  all: intros ev Hin Hcall; apply in_app_or in Hin as [Hin | [<- | []]];
    [assumption | discriminate].
Qed.

(** A Send click without a key on a store of two turns. *)
Lemma C5_witness :
  let s := {| conversation := Some [("user", "fever"); ("ai", "Rest.")]; trace := [] |} in
  let after := act (answering PNone) (sample_page "" "sore throat" (Some Send)) s in
  fst after = Returned
  /\ turns (snd after) = [("user", "fever"); ("ai", "Rest.")]
  /\ trace (snd after) = [StError "Please enter your Gemini API Key in the sidebar."].
Proof.
  intros s after.
  pose proof (C5_empty_key_blocks_send
                (answering PNone) (sample_page "" "sore throat" (Some Send)) s
                eq_refl eq_refl) as [Hend [_ [Hturns [Htrace _]]]].
  repeat split; assumption.
Defined.

(** C9: a Send click with a key and an empty text is a run that falls
    through: the turns of the store are the ones it had, and nothing is
    added to the trace, neither a call nor an error notice. *)
Theorem C9_empty_text_send_is_silent (w : world) (ui : surface) (s : run_state) :
  clicked ui = Some Send ->
  nonempty (api_key_input ui) = true ->
  symptoms_input ui = "" ->
  act w ui s = (Normal tt, {| conversation := Some (turns s); trace := trace s |})
  /\ turns (snd (act w ui s)) = turns s
  /\ trace (snd (act w ui s)) = trace s.
Proof.
  intros Hclick Hkey Htext.
  assert (Hact : act w ui s
                 = (Normal tt, {| conversation := Some (turns s); trace := trace s |})).
  { destruct s as [[c|] tr]; unfold_main; rewrite Hclick, Hkey, Htext; reflexivity. }
  rewrite Hact. destruct s as [[c|] tr]; repeat split; reflexivity.
Qed.

(** A Send click with a key and no text on a store of two turns. *)
Lemma C9_witness :
  let s := {| conversation := Some [("user", "fever"); ("ai", "Rest.")]; trace := [] |} in
  act (answering PNone) (sample_page "secret" "" (Some Send)) s = (Normal tt, s).
Proof.
  intros s.
  exact (proj1 (C9_empty_text_send_is_silent
                  (answering PNone) (sample_page "secret" "" (Some Send)) s
                  eq_refl eq_refl eq_refl)).
Defined.

(** A Send click with a key and a text appends the user turn and then
    one assistant turn, on each path through the [try]. *)
Lemma send_appends_two_turns (w : world) (ui : surface) (s : run_state) :
  clicked ui = Some Send ->
  nonempty (api_key_input ui) = true ->
  nonempty (symptoms_input ui) = true ->
  exists reply : string,
    turns (snd (act w ui s))
    = (turns s ++ [("user", symptoms_input ui); ("ai", reply)])%list.
Proof.
  intros Hclick Hkey Htext.
  destruct s as [[c|] tr]; unfold_main; simpl; rewrite Hclick, Hkey, Htext; simpl.
  all: destruct (genai_configure w (api_key_input ui)) as [[]|e1]; simpl;
    [ destruct (genai_GenerativeModel w (model_select ui)) as [m|e2]; simpl;
      [ destruct (generate_content m _) as [r|e3]; simpl;
        [ destruct (text r) as [reply|e4]; simpl |] |] |].
  all: rewrite ?Hkey; simpl; try rewrite <- app_assoc; simpl; eexists; reflexivity.
Qed.

Lemma count_role_app (role : string) (c1 c2 : list turn) :
  count_role role (c1 ++ c2)%list = (count_role role c1 + count_role role c2)%nat.
Proof. unfold count_role. now rewrite filter_app, length_app. Qed.

Lemma count_role_exchanges (actions : list (world * surface)) (replies : list string) :
  length replies = length actions ->
  count_role "user" (exchanges actions replies) = length actions
  /\ count_role "ai" (exchanges actions replies) = length actions.
Proof.
  revert replies.
  induction actions as [|[w ui] actions IH]; intros [|reply replies] Hlen;
    simpl in *; try discriminate; [split; reflexivity|].
  injection Hlen as Hlen. destruct (IH _ Hlen) as [Huser Hai].
  unfold count_role in *. simpl. rewrite Huser, Hai. split; reflexivity.
Qed.

(** A Send click with a key and a text appends the user turn and then
    the assistant turn that holds the reply text or the error string. *)
Lemma send_appends_reply (w : world) (ui : surface) (s : run_state) :
  clicked ui = Some Send ->
  nonempty (api_key_input ui) = true ->
  nonempty (symptoms_input ui) = true ->
  turns (snd (act w ui s))
  = (turns s ++ [("user", symptoms_input ui);
                 ("ai", assistant_text w ui (turns s))])%list.
Proof.
  intros Hclick Hkey Htext.
  assert (Hcontext : forall c : list turn,
             conversation_context (c ++ [("user", symptoms_input ui)])%list
             = context_of c).
  { intros c. unfold conversation_context, context_of. now rewrite all_but_last_snoc. }
  pose proof (Hcontext []) as Hfirst. simpl app in Hfirst.
  destruct s as [[c|] tr]; unfold assistant_text.
  all: unfold_main; simpl turns; simpl; rewrite Hclick, Hkey, Htext; simpl.
  all: destruct (genai_configure w (api_key_input ui)) as [[]|e1]; simpl;
    [ destruct (genai_GenerativeModel w (model_select ui)) as [m|e2]; simpl;
      [ rewrite ?Hcontext, ?Hfirst;
        destruct (generate_content m _) as [r|e3]; simpl;
        [ destruct (text r) as [reply|e4]; simpl |] |] |].
  all: rewrite ?Hkey; simpl; try rewrite <- app_assoc; reflexivity.
Qed.

Lemma length_replies_of (actions : list (world * surface)) :
  forall prior : list turn, length (replies_of actions prior) = length actions.
Proof.
  induction actions as [|[w ui] actions IH]; intros prior; simpl;
    [reflexivity | now rewrite IH].
Qed.

(** The store after a session of Send clicks is the store before it
    followed by one exchange per click, the assistant turn of each
    holding the reply text or the error string of its click. *)
Lemma session_of_sends (actions : list (world * surface)) :
  Forall is_send actions ->
  forall s : run_state,
  turns (session actions s)
  = (turns s ++ exchanges actions (replies_of actions (turns s)))%list.
Proof.
  induction 1 as [|[w ui] actions [Hclick [Hkey Htext]] _ IH]; intros s.
  - simpl. now rewrite app_nil_r.
  - simpl in Hclick, Hkey, Htext. simpl.
    rewrite IH, (send_appends_reply w ui s Hclick Hkey Htext).
    now rewrite <- app_assoc.
Qed.

(** C1: after any sequence of N Send clicks, each with a key and a text,
    the store holds the turns it had followed, for each click in order,
    by the user turn and then one assistant turn.  The assistant turn
    holds the reply text of the model when the generation succeeds and
    the error string when a call raises ([assistant_text], computed on
    the store the click found).  So the store has gained exactly N user
    turns and exactly N assistant turns, whether the calls succeed or
    raise, and a session that starts with no store ends with N of
    each. *)
Theorem C1_each_send_adds_one_user_and_one_assistant_turn
  (actions : list (world * surface)) (s : run_state) :
  Forall is_send actions ->
  let N := length actions in
  let after := session actions s in
  let replies := replies_of actions (turns s) in
  turns after = (turns s ++ exchanges actions replies)%list
  /\ length replies = N
  /\ count_role "user" (turns after) = (count_role "user" (turns s) + N)%nat
  /\ count_role "ai" (turns after) = (count_role "ai" (turns s) + N)%nat
  /\ (turns s = [] ->
      count_role "user" (turns after) = N /\ count_role "ai" (turns after) = N).
Proof.
  intros Hsends N after replies.
  pose proof (session_of_sends actions Hsends s) as Hturns.
  pose proof (length_replies_of actions (turns s)) as Hlen.
  fold after replies in Hturns. fold N replies in Hlen.
  destruct (count_role_exchanges actions replies Hlen) as [Huser Hai].
  assert (Hu : count_role "user" (turns after) = (count_role "user" (turns s) + N)%nat).
  { rewrite Hturns, count_role_app, Huser. reflexivity. }
  assert (Ha : count_role "ai" (turns after) = (count_role "ai" (turns s) + N)%nat).
  { rewrite Hturns, count_role_app, Hai. reflexivity. }
  split; [exact Hturns|]. split; [exact Hlen|].
  split; [exact Hu|]. split; [exact Ha|].
  intros Hempty. rewrite Hu, Ha, Hempty. split; reflexivity.
Qed.

(** The three clicks of [sample_sends] on a new session: a reply, then
    the two error strings. *)
Lemma C1_witness :
  turns (session sample_sends first_run)
  = [ ("user", "fever"); ("ai", "Rest and fluids.");
      ("user", "cough"); ("ai", "Error generating response: 429 quota exceeded");
      ("user", "headache"); ("ai", "Error: unknown model") ]
  /\ count_role "user" (turns (session sample_sends first_run)) = 3%nat
  /\ count_role "ai" (turns (session sample_sends first_run)) = 3%nat.
Proof.
  assert (Hsends : Forall is_send sample_sends).
  { repeat (apply Forall_cons; [repeat split; reflexivity|]). apply Forall_nil. }
  destruct (C1_each_send_adds_one_user_and_one_assistant_turn sample_sends first_run Hsends)
    as [Hstore [_ [_ [_ Hcount]]]].
  split; [exact Hstore | exact (Hcount eq_refl)].
Defined.

(** The store of the sample session: a reply, then the two error texts. *)
Example sample_session_store :
  turns (session sample_sends first_run)
  = [ ("user", "fever"); ("ai", "Rest and fluids.");
      ("user", "cough"); ("ai", "Error generating response: 429 quota exceeded");
      ("user", "headache"); ("ai", "Error: unknown model") ].
Proof. reflexivity. Qed.

(** ** The radius of the search *)

Lemma act_trace (w : world) (ui : surface) (s : run_state) :
  trace (snd (act w ui s)) = trace (snd (main w ui s)).
Proof.
  unfold act. destruct (main w ui s) as [[[]|e| |] s']; try reflexivity.
  now rewrite main_no_click.
Qed.

(** The search records its request first, and then notices only. *)
Lemma get_nearby_hospitals_trace
  (w : world) (latitude longitude : spec_float) (radius : Z) (s : run_state) :
  exists (hospitals : list hospital) (notices : list event),
    get_nearby_hospitals w latitude longitude radius s
    = (Normal hospitals,
       logged s (Post overpass_url (overpass_query latitude longitude radius) :: notices))
    /\ forall ev, In ev notices -> is_call ev = false.
Proof.
  destruct (requests_post w overpass_url (overpass_query latitude longitude radius))
    as [response|e] eqn:Hpost.
  - destruct (json response) as [data|e] eqn:Hjson.
    + rewrite (get_nearby_hospitals_answered _ _ _ _ _ _ _ Hpost Hjson).
      destruct (obind _ _) as [hospitals|e].
      * exists hospitals, []. split; [reflexivity | intros ev []].
      * exists [], [StError ("Error fetching hospital data: " ++ str_exn e)].
        split; [reflexivity | intros ev [<- | []]; reflexivity].
    + exists [], [StError ("Error fetching hospital data: " ++ str_exn e)].
      split; [| intros ev [<- | []]; reflexivity].
      apply get_nearby_hospitals_failed. right. now exists response.
  - exists [], [StError ("Error fetching hospital data: " ++ str_exn e)].
    split; [| intros ev [<- | []]; reflexivity].
    apply get_nearby_hospitals_failed. now left.
Qed.

(** Splits a membership in a trace into the events it is built from. *)
Ltac split_trace H :=
  repeat match type of H with
    | In _ (_ ++ _)%list => apply in_app_or in H as [H | H]
    | In _ (_ :: _) => destruct H as [H | H]
    | In _ [] => destruct H
    end.






(** * More of the script *)

(** ** The store over a session *)

(** Replaces the search in the goal by what it returns and records. *)
Ltac run_search :=
  match goal with
  | |- context [get_nearby_hospitals ?w ?la ?lo ?r ?st] =>
      let hospitals := fresh "hospitals" in
      let notices := fresh "notices" in
      let Hrun := fresh "Hrun" in
      let Hnotices := fresh "Hnotices" in
      destruct (get_nearby_hospitals_trace w la lo r st)
        as [hospitals [notices [Hrun Hnotices]]];
      rewrite Hrun
  end.

(** Splits a run of the Send branch along the results of its calls. *)
Ltac split_send w ui :=
  destruct (genai_configure w (api_key_input ui)) as [[]|?e]; simpl;
  [ destruct (genai_GenerativeModel w (model_select ui)) as [?m|?e]; simpl;
    [ destruct (generate_content _ _) as [?r|?e]; simpl;
      [ destruct (text _) as [?reply|?e]; simpl |] |] |].

(** What an action does to the turns of the store. *)
Lemma act_store_step (w : world) (ui : surface) (s : run_state) :
  if ready_to_send ui
  then exists reply : string,
      turns (snd (act w ui s))
      = (turns s ++ [("user", symptoms_input ui); ("ai", reply)])%list
  else turns (snd (act w ui s)) = turns s.
Proof.
  unfold ready_to_send.
  destruct (clicked ui) as [[| |]|] eqn:Hclick.
  - (* List Available Models *)
    destruct s as [[c|] tr]; unfold_main; rewrite Hclick; simpl.
    all: destruct (nonempty (api_key_input ui)); simpl; [|reflexivity].
    all: destruct (genai_configure w (api_key_input ui)) as [[]|e1]; simpl;
      [destruct (genai_list_models w) as [names|e2]; simpl |]; reflexivity.
  - (* Send *)
    destruct (nonempty (api_key_input ui)) eqn:Hkey;
      destruct (nonempty (symptoms_input ui)) eqn:Htext; simpl.
    + apply send_appends_two_turns; assumption.
    + destruct s as [[c|] tr]; unfold_main; rewrite Hclick, Hkey, Htext; reflexivity.
    + destruct s as [[c|] tr]; unfold_main; rewrite Hclick, Hkey; reflexivity.
    + destruct s as [[c|] tr]; unfold_main; rewrite Hclick, Hkey; reflexivity.
  - (* Find Nearby Hospitals *)
    destruct s as [[c|] tr]; unfold act, main, st_button; rewrite Hclick.
    all: destruct (nonempty (api_key_input ui)); simpl.
    all: destruct (nonzero (latitude_input ui) && nonzero (longitude_input ui)).
    all: unfold init_conversation, turns; unfold_script; simpl.
    all: try reflexivity.
    all: run_search; reflexivity.
  - unfold act. rewrite (main_no_click _ _ _ Hclick). destruct s as [[c|] tr]; reflexivity.
Qed.

(** X1: an action changes the store in one way only.  A Send click with
    a key and a text appends the user turn and one assistant turn; every
    other action (another button, no click, a Send without key or
    without text) leaves the turns as they were. *)
Theorem X1_store_changes_only_on_ready_send (w : world) (ui : surface) (s : run_state) :
  if ready_to_send ui
  then exists reply : string,
      turns (snd (act w ui s))
      = (turns s ++ [("user", symptoms_input ui); ("ai", reply)])%list
  else turns (snd (act w ui s)) = turns s.
Proof. apply act_store_step. Qed.

(** Induction over a list two items at a time. *)
Lemma pairs_ind {A : Type} (P : list A -> Prop) :
  P [] -> (forall a, P [a]) -> (forall a b l, P l -> P (a :: b :: l)) ->
  forall l, P l.
Proof.
  intros Hnil Hone Hstep l.
  enough (H : P l /\ forall a, P (a :: l)) by apply H.
  induction l as [|b l [IHl IHcons]]; split; auto.
Qed.

Lemma alternating_app (c added : list turn) :
  alternating c = true -> alternating added = true ->
  alternating (c ++ added)%list = true.
Proof.
  intros Hc Hadded. revert Hc.
  induction c as [|a|[asker q] [answerer r] c IH] using pairs_ind; simpl.
  - intros _. exact Hadded.
  - destruct a. discriminate.
  - intros H. apply andb_prop in H as [Hroles Hrest].
    rewrite Hroles. simpl. exact (IH Hrest).
Qed.

Lemma alternating_counts (c : list turn) :
  alternating c = true ->
  count_role "user" c = count_role "ai" c
  /\ length c = (2 * count_role "user" c)%nat.
Proof.
  induction c as [|a|[asker q] [answerer r] c IH] using pairs_ind; simpl.
  - intros _. split; reflexivity.
  - destruct a. discriminate.
  - intros H. apply andb_prop in H as [Hroles Hrest].
    apply andb_prop in Hroles as [Hasker Hanswerer].
    apply String.eqb_eq in Hasker, Hanswerer. subst.
    destruct (IH Hrest) as [Hsame Hlen]. unfold count_role in *. simpl.
    rewrite Hsame, Hlen. split; lia.
Qed.

Lemma act_keeps_exchanges (w : world) (ui : surface) (s : run_state) :
  alternating (turns s) = true ->
  (exists added, turns (snd (act w ui s)) = (turns s ++ added)%list)
  /\ alternating (turns (snd (act w ui s))) = true.
Proof.
  intros Halt. pose proof (act_store_step w ui s) as Hstep.
  destruct (ready_to_send ui).
  - destruct Hstep as [reply ->]. split; [eexists; reflexivity|].
    apply alternating_app; [exact Halt | reflexivity].
  - rewrite Hstep. split; [exists []; now rewrite app_nil_r | exact Halt].
Qed.

Lemma session_keeps_exchanges (actions : list (world * surface)) :
  forall s : run_state,
  alternating (turns s) = true ->
  (exists added, turns (session actions s) = (turns s ++ added)%list)
  /\ alternating (turns (session actions s)) = true.
Proof.
  induction actions as [|[w ui] actions IH]; intros s Halt; simpl.
  - split; [exists []; now rewrite app_nil_r | exact Halt].
  - destruct (act_keeps_exchanges w ui s Halt) as [[added1 Hadded1] Halt1].
    destruct (IH _ Halt1) as [[added2 Hadded2] Halt2].
    split; [|exact Halt2].
    exists (added1 ++ added2)%list. now rewrite Hadded2, Hadded1, <- app_assoc.
Qed.

(** X2: whatever the user does (any buttons, any texts, any keys) and
    whatever the libraries answer, a store made of exchanges stays one:
    the turns it had are kept in place, what is added comes after them,
    user and assistant turns alternate, and there are as many of the one
    as of the other.  No action leaves a user turn without its answer. *)
Theorem X2_session_keeps_store_in_exchanges
  (actions : list (world * surface)) (s : run_state) :
  alternating (turns s) = true ->
  let after := turns (session actions s) in
  (exists added, after = (turns s ++ added)%list)
  /\ alternating after = true
  /\ count_role "user" after = count_role "ai" after
  /\ length after = (2 * count_role "user" after)%nat.
Proof.
  intros Halt after.
  destruct (session_keeps_exchanges actions s Halt) as [Hadded Halt'].
  destruct (alternating_counts _ Halt') as [Hsame Hlen].
  repeat split; assumption.
Qed.

(** The three Send clicks, a search and a Send without a key. *)
Lemma X2_witness :
  let actions :=
    (sample_sends
     ++ [ (answering (PDict []), page_with_slider 25000 (Some FindNearbyHospitals));
          (answering PNone, sample_page "" "dizzy" (Some Send)) ])%list in
  alternating (turns (session actions first_run)) = true
  /\ length (turns (session actions first_run)) = 6%nat.
Proof.
  intros actions.
  destruct (X2_session_keeps_store_in_exchanges actions first_run eq_refl)
    as [_ [Halt [_ Hlen]]].
  split; [exact Halt | exact Hlen].
Defined.

(** ** The paths of a Send *)

Lemma conversation_context_snoc (c : list turn) (t : turn) :
  conversation_context (c ++ [t])%list = context_of c.
Proof. unfold conversation_context, context_of. now rewrite all_but_last_snoc. Qed.

(** A Send whose two setup calls succeed, whatever the generation does. *)
Lemma send_with_model (w : world) (ui : surface) (s : run_state) (m : model) :
  clicked ui = Some Send ->
  nonempty (api_key_input ui) = true ->
  nonempty (symptoms_input ui) = true ->
  genai_configure w (api_key_input ui) = Ok tt ->
  genai_GenerativeModel w (model_select ui) = Ok m ->
  let prompt := full_prompt (symptoms_input ui) (context_of (turns s)) in
  let reply :=
    match generate_content m prompt with
    | Ok r =>
        match text r with
        | Ok t => t
        | Raise e => "Error generating response: " ++ str_exn e
        end
    | Raise e => "Error generating response: " ++ str_exn e
    end in
  let after :=
    {| conversation := Some (turns s ++ [("user", symptoms_input ui); ("ai", reply)])%list;
       trace := (trace s ++ [Configure (api_key_input ui); NewModel (model_select ui);
                             Generate prompt])%list |} in
  main w ui s = (Rerun, after) /\ act w ui s = (Normal tt, after).
Proof.
  intros Hclick Hkey Htext Hconf Hmodel prompt reply after.
  assert (Hmain : main w ui s = (Rerun, after)).
  { subst after reply prompt.
    destruct s as [[c|] tr]; unfold main, st_button; rewrite Hclick, Hkey, Htext; simpl.
    all: unfold configure_genai, get_ai_response, append_turn, get_conversation,
           init_conversation, turns; unfold_script; simpl.
    all: rewrite Hconf; simpl; rewrite Hmodel; simpl.
    - rewrite (conversation_context_snoc c).
      destruct (generate_content m _) as [r|e]; simpl;
        [destruct (text r) as [t|e]; simpl |];
        repeat rewrite <- app_assoc; reflexivity.
    - change (conversation_context [("user", symptoms_input ui)])
        with (conversation_context ([] ++ [("user", symptoms_input ui)])%list).
      rewrite (conversation_context_snoc []).
      destruct (generate_content m _) as [r|e]; simpl;
        [destruct (text r) as [t|e]; simpl |];
        repeat rewrite <- app_assoc; reflexivity. }
  split; [exact Hmain|].
  unfold act. rewrite Hmain. now rewrite main_no_click.
Qed.

(** X3: a Send whose setup succeeds makes three calls and no more, in
    this order: [genai.configure] with the key of the page, the model of
    the selected name, and one generation.  The prompt of the generation
    is built from the text and from the serialization of the whole store
    as it was before the click, so the new text is not repeated in its
    own context.  No error notice is displayed, whether the generation
    succeeds or not, and the run ends in [st.rerun()]. *)
Theorem X3_send_makes_three_calls_with_prior_store_as_context
  (w : world) (ui : surface) (s : run_state) (m : model) :
  clicked ui = Some Send ->
  nonempty (api_key_input ui) = true ->
  nonempty (symptoms_input ui) = true ->
  genai_configure w (api_key_input ui) = Ok tt ->
  genai_GenerativeModel w (model_select ui) = Ok m ->
  fst (main w ui s) = Rerun
  /\ trace (snd (act w ui s))
     = (trace s
        ++ [Configure (api_key_input ui);
            NewModel (model_select ui);
            Generate (full_prompt (symptoms_input ui) (context_of (turns s)))])%list.
Proof.
  intros Hclick Hkey Htext Hconf Hmodel.
  destruct (send_with_model w ui s m Hclick Hkey Htext Hconf Hmodel) as [Hmain Hact].
  rewrite Hmain, Hact. split; reflexivity.
Qed.

(** A second Send, after one exchange. *)
Lemma X3_witness :
  let s := {| conversation := Some [("user", "fever"); ("ai", "Rest.")]; trace := [] |} in
  trace (snd (act (answering PNone) (sample_page "secret" "cough" (Some Send)) s))
  = [Configure "secret"; NewModel "gemini-1.5-pro";
     Generate (full_prompt "cough" ("User: fever" ++ nl ++ "AI: Rest."))].
Proof.
  intros s.
  exact (proj2 (X3_send_makes_three_calls_with_prior_store_as_context
                  (answering PNone) (sample_page "secret" "cough" (Some Send)) s
                  (sample_model (Ok {| text := Ok "Rest and fluids." |}))
                  eq_refl eq_refl eq_refl eq_refl eq_refl)).
Defined.

(** X4: after a Send whose setup succeeds, the assistant turn stored is
    the text of the model's answer as it is; when the generation call
    raises, or when reading the text of the answer raises, it is the
    string "Error generating response: " followed by the message. *)
Theorem X4_send_stores_answer_or_generation_error
  (w : world) (ui : surface) (s : run_state) (m : model) :
  clicked ui = Some Send ->
  nonempty (api_key_input ui) = true ->
  nonempty (symptoms_input ui) = true ->
  genai_configure w (api_key_input ui) = Ok tt ->
  genai_GenerativeModel w (model_select ui) = Ok m ->
  let prompt := full_prompt (symptoms_input ui) (context_of (turns s)) in
  let stored reply :=
    turns (snd (act w ui s))
    = (turns s ++ [("user", symptoms_input ui); ("ai", reply)])%list in
  (forall r t, generate_content m prompt = Ok r -> text r = Ok t -> stored t)
  /\ (forall r e, generate_content m prompt = Ok r -> text r = Raise e ->
        stored ("Error generating response: " ++ str_exn e))
  /\ (forall e, generate_content m prompt = Raise e ->
        stored ("Error generating response: " ++ str_exn e)).
Proof.
  intros Hclick Hkey Htext Hconf Hmodel prompt stored. subst stored.
  destruct (send_with_model w ui s m Hclick Hkey Htext Hconf Hmodel) as [_ Hact].
  rewrite Hact. fold prompt. simpl. repeat split.
  - intros r t -> ->. reflexivity.
  - intros r e -> ->. reflexivity.
  - intros e ->. reflexivity.
Qed.

(** The second click of [sample_sends]: the generation is out of quota. *)
Lemma X4_witness :
  let w := sample_world (Ok tt)
             (Ok (sample_model (Raise (LibraryError "429 quota exceeded"))))
             (Raise (LibraryError "unused")) in
  turns (snd (act w (sample_page "secret" "cough" (Some Send)) first_run))
  = [("user", "cough"); ("ai", "Error generating response: 429 quota exceeded")].
Proof.
  intros w.
  exact (proj2 (proj2 (X4_send_stores_answer_or_generation_error
                         w (sample_page "secret" "cough" (Some Send)) first_run
                         (sample_model (Raise (LibraryError "429 quota exceeded")))
                         eq_refl eq_refl eq_refl eq_refl eq_refl))
               (LibraryError "429 quota exceeded") eq_refl).
Defined.

(** A Send whose setup fails. *)
Lemma send_setup_fails (w : world) (ui : surface) (s : run_state) (e : exn) :
  clicked ui = Some Send ->
  nonempty (api_key_input ui) = true ->
  nonempty (symptoms_input ui) = true ->
  genai_configure w (api_key_input ui) = Raise e
  \/ (genai_configure w (api_key_input ui) = Ok tt
      /\ genai_GenerativeModel w (model_select ui) = Raise e) ->
  exists calls : list event,
    (calls = [Configure (api_key_input ui)]
     \/ calls = [Configure (api_key_input ui); NewModel (model_select ui)])
    /\ let after :=
         {| conversation :=
              Some (turns s ++ [("user", symptoms_input ui);
                                ("ai", ("Error: " ++ str_exn e)%string)])%list;
            trace := (trace s ++ calls
                      ++ [StError ("Error: " ++ str_exn e)%string])%list |} in
       main w ui s = (Normal tt, after) /\ act w ui s = (Normal tt, after).
Proof.
  intros Hclick Hkey Htext Hfail.
  enough (Hmain : exists calls : list event,
             (calls = [Configure (api_key_input ui)]
              \/ calls = [Configure (api_key_input ui); NewModel (model_select ui)])
             /\ main w ui s
                = (Normal tt,
                   {| conversation :=
                        Some (turns s ++ [("user", symptoms_input ui);
                                          ("ai", ("Error: " ++ str_exn e)%string)])%list;
                      trace := (trace s ++ calls
                                ++ [StError ("Error: " ++ str_exn e)%string])%list |})).
  { destruct Hmain as [calls [Hcalls Hmain]]. exists calls. split; [exact Hcalls|].
    split; [exact Hmain|]. unfold act. now rewrite Hmain. }
  destruct Hfail as [Hconf | [Hconf Hmodel]].
  - exists [Configure (api_key_input ui)]. split; [now left|].
    destruct s as [[c|] tr]; unfold main, st_button; rewrite Hclick, Hkey, Htext; simpl.
    all: unfold configure_genai, append_turn, get_conversation, init_conversation, turns;
      unfold_script; simpl.
    all: rewrite Hconf; simpl; repeat rewrite <- app_assoc; reflexivity.
  - exists [Configure (api_key_input ui); NewModel (model_select ui)].
    split; [now right|].
    destruct s as [[c|] tr]; unfold main, st_button; rewrite Hclick, Hkey, Htext; simpl.
    all: unfold configure_genai, append_turn, get_conversation, init_conversation, turns;
      unfold_script; simpl.
    all: rewrite Hconf; simpl; rewrite Hmodel; simpl;
      repeat rewrite <- app_assoc; reflexivity.
Qed.

(** X5: when [genai.configure] or the making of the model raises during
    a Send, the exception is caught by the handler of line 157: the
    store gets the user turn and the assistant turn "Error: " followed
    by the message, the same text is displayed as an error notice, no
    generation call is made, and the run goes on without a rerun. *)
Theorem X5_setup_failure_is_stored_and_displayed
  (w : world) (ui : surface) (s : run_state) (e : exn) :
  clicked ui = Some Send ->
  nonempty (api_key_input ui) = true ->
  nonempty (symptoms_input ui) = true ->
  genai_configure w (api_key_input ui) = Raise e
  \/ (genai_configure w (api_key_input ui) = Ok tt
      /\ genai_GenerativeModel w (model_select ui) = Raise e) ->
  fst (main w ui s) = Normal tt
  /\ turns (snd (act w ui s))
     = (turns s ++ [("user", symptoms_input ui);
                    ("ai", ("Error: " ++ str_exn e)%string)])%list
  /\ In (StError ("Error: " ++ str_exn e)) (trace (snd (act w ui s)))
  /\ (forall prompt, In (Generate prompt) (trace (snd (act w ui s))) ->
                     In (Generate prompt) (trace s)).
Proof.
  intros Hclick Hkey Htext Hfail.
  destruct (send_setup_fails w ui s e Hclick Hkey Htext Hfail)
    as [calls [Hcalls [Hmain Hact]]].
  rewrite Hmain, Hact. simpl. repeat split.
  - apply in_or_app. right. apply in_or_app. right. now left.
  - intros prompt Hin. split_trace Hin; try assumption.
    all: destruct Hcalls as [-> | ->]; split_trace Hin; discriminate.
Qed.

(** The third click of [sample_sends]: the model cannot be made. *)
Lemma X5_witness :
  let w := sample_world (Ok tt) (Raise (LibraryError "unknown model"))
             (Raise (LibraryError "unused")) in
  let after := snd (act w (sample_page "secret" "headache" (Some Send)) first_run) in
  turns after = [("user", "headache"); ("ai", "Error: unknown model")]
  /\ In (StError "Error: unknown model") (trace after).
Proof.
  intros w after.
  destruct (X5_setup_failure_is_stored_and_displayed
              w (sample_page "secret" "headache" (Some Send)) first_run
              (LibraryError "unknown model") eq_refl eq_refl eq_refl
              (or_intror (conj eq_refl eq_refl))) as [_ [Hturns [Hnotice _]]].
  split; [exact Hturns | exact Hnotice].
Defined.

(** ** The List Available Models button *)

(** X6: a click on List Available Models with a key configures the
    library with that key and lists the models, and leaves the turns of
    the store alone.  A failure of the listing is caught inside
    [list_available_models], which then returns the single line
    "Error listing models: " followed by the message, and the run goes
    on.  A failure of [genai.configure] is not caught here: the run ends
    with that exception right after the call, before the listing and
    before the store is set for a new session. *)
Theorem X6_list_models_click (w : world) (ui : surface) (s : run_state) :
  clicked ui = Some ListAvailableModels ->
  nonempty (api_key_input ui) = true ->
  (genai_configure w (api_key_input ui) = Ok tt ->
   act w ui s
   = (Normal tt,
      {| conversation := Some (turns s);
         trace := (trace s ++ [Configure (api_key_input ui); ListModels])%list |}))
  /\ (forall e, genai_configure w (api_key_input ui) = Raise e ->
        act w ui s = (Raised e, logged s [Configure (api_key_input ui)]))
  /\ (forall s0,
        list_available_models w s0
        = (Normal match genai_list_models w with
                  | Ok names => names
                  | Raise e => ["Error listing models: " ++ str_exn e]
                  end,
           logged s0 [ListModels])).
Proof.
  intros Hclick Hkey. repeat split.
  - intros Hconf.
    destruct s as [[c|] tr]; unfold_main; rewrite Hclick, Hkey; simpl.
    all: rewrite Hconf; simpl.
    all: destruct (genai_list_models w) as [names|e]; simpl;
      repeat rewrite <- app_assoc; reflexivity.
  - intros e Hconf.
    destruct s as [[c|] tr]; unfold_main; rewrite Hclick, Hkey; simpl.
    all: rewrite Hconf; reflexivity.
  - intros s0. unfold list_available_models. unfold_script.
    destruct (genai_list_models w) as [names|e]; reflexivity.
Qed.

(** A library that refuses the key, on a new session. *)
Lemma X6_witness :
  let w := sample_world (Raise (LibraryError "invalid key"))
             (Raise (LibraryError "unused")) (Raise (LibraryError "unused")) in
  act w (sample_page "secret" "" (Some ListAvailableModels)) first_run
  = (Raised (LibraryError "invalid key"),
     {| conversation := None; trace := [Configure "secret"] |}).
Proof.
  intros w.
  exact (proj1 (proj2 (X6_list_models_click
                         w (sample_page "secret" "" (Some ListAvailableModels)) first_run
                         eq_refl eq_refl))
               (LibraryError "invalid key") eq_refl).
Defined.

(** ** Which action may call the model library *)

Lemma genai_call_is_call (ev : event) : is_genai_call ev = true -> is_call ev = true.
Proof. destruct ev; simpl; congruence. Qed.

Lemma genai_calls_need_key_and_button (w : world) (ui : surface) (s : run_state)
  (ev : event) :
  In ev (trace (snd (act w ui s))) ->
  is_genai_call ev = true ->
  In ev (trace s)
  \/ (nonempty (api_key_input ui) = true
      /\ (clicked ui = Some ListAvailableModels
          \/ (clicked ui = Some Send /\ nonempty (symptoms_input ui) = true))).
Proof.
  rewrite act_trace.
  destruct (clicked ui) as [[| |]|] eqn:Hclick.
  - destruct (nonempty (api_key_input ui)) eqn:Hkey; [intros _ _; right; auto|].
    intros Hin _. left. revert Hin.
    destruct s as [[c|] tr]; unfold_main; rewrite Hclick, Hkey; simpl; auto.
  - destruct (nonempty (api_key_input ui)) eqn:Hkey.
    + destruct (nonempty (symptoms_input ui)) eqn:Htext; [intros _ _; right; auto|].
      intros Hin _. left. revert Hin.
      destruct s as [[c|] tr]; unfold_main; rewrite Hclick, Hkey, Htext; simpl; auto.
    + intros Hin Hcall. left. revert Hin.
      destruct s as [[c|] tr]; unfold_main; rewrite Hclick, Hkey; simpl.
      all: intros Hin; split_trace Hin; try assumption; subst ev; discriminate.
  - intros Hin Hcall. left. revert Hin.
    destruct s as [[c|] tr]; unfold main, st_button; rewrite Hclick.
    all: destruct (nonempty (api_key_input ui)); simpl.
    all: destruct (nonzero (latitude_input ui) && nonzero (longitude_input ui)).
    all: unfold init_conversation; unfold_script; simpl.
    all: try run_search; simpl.
    all: intros Hin; split_trace Hin; try assumption; try (subst ev; discriminate).
    all: apply Hnotices in Hin; apply genai_call_is_call in Hcall; congruence.
  - intros Hin _. left. now rewrite (main_no_click _ _ _ Hclick) in Hin.
Qed.

(** X7: a run calls the model library (configure, model, generation,
    listing) only when the page holds a key and the click is either List
    Available Models or a Send with a text.  So without a key no action
    reaches the library, and a search for hospitals never does. *)
Theorem X7_model_library_called_only_with_key
  (w : world) (ui : surface) (s : run_state) (ev : event) :
  In ev (trace (snd (act w ui s))) ->
  is_genai_call ev = true ->
  In ev (trace s)
  \/ (nonempty (api_key_input ui) = true
      /\ (clicked ui = Some ListAvailableModels
          \/ (clicked ui = Some Send /\ nonempty (symptoms_input ui) = true))).
Proof. apply genai_calls_need_key_and_button. Qed.

(** The generation call of a Send on a new session. *)
Lemma X7_witness :
  let ui := sample_page "secret" "fever" (Some Send) in
  nonempty (api_key_input ui) = true
  /\ (clicked ui = Some ListAvailableModels
      \/ (clicked ui = Some Send /\ nonempty (symptoms_input ui) = true)).
Proof.
  intros ui.
  destruct (X7_model_library_called_only_with_key
              (answering PNone) ui first_run (Generate (full_prompt "fever" "")))
    as [[] | Hneeded].
  - right. right. now left.
  - reflexivity.
  - exact Hneeded.
Defined.

(** ** The search, on any response *)

(** The search ends normally, with its records or with one notice. *)
Lemma search_records_or_notice
  (w : world) (latitude longitude : spec_float) (radius : Z) (s : run_state) :
  let request := Post overpass_url (overpass_query latitude longitude radius) in
  (exists hospitals : list hospital,
      get_nearby_hospitals w latitude longitude radius s
      = (Normal hospitals, logged s [request]))
  \/ (exists e : exn,
        get_nearby_hospitals w latitude longitude radius s
        = (Normal [],
           logged s [request; StError ("Error fetching hospital data: " ++ str_exn e)])).
Proof.
  intros request. subst request.
  destruct (requests_post w overpass_url (overpass_query latitude longitude radius))
    as [response|e] eqn:Hpost.
  - destruct (json response) as [data|e] eqn:Hjson.
    + rewrite (get_nearby_hospitals_answered _ _ _ _ _ _ _ Hpost Hjson).
      destruct (obind _ _) as [hospitals|e]; [left | right]; eexists; reflexivity.
    + right. exists e. apply get_nearby_hospitals_failed. right. now exists response.
  - right. exists e. apply get_nearby_hospitals_failed. now left.
Qed.

(** X8: the search never raises and never touches the store, whatever
    the radius, the network and the response are.  It makes exactly one
    request, the query built with the radius it was given, and then
    either returns its records and displays nothing, or displays one
    error notice and returns the empty list: an error never comes with
    some of the records. *)
Theorem X8_search_returns_records_or_one_notice
  (w : world) (latitude longitude : spec_float) (radius : Z) (s : run_state) :
  let request := Post overpass_url (overpass_query latitude longitude radius) in
  (exists hospitals : list hospital,
      get_nearby_hospitals w latitude longitude radius s
      = (Normal hospitals, logged s [request]))
  \/ (exists e : exn,
        get_nearby_hospitals w latitude longitude radius s
        = (Normal [],
           logged s [request; StError ("Error fetching hospital data: " ++ str_exn e)])).
Proof. apply search_records_or_notice. Qed.

(** An element that passes the name test and gives a record is a named
    element with both coordinates, and the record is the one of the
    specification. *)
Lemma has_name_hospital_of (element : pyval) (h : hospital) :
  has_name element = Ok true ->
  hospital_of element = Ok h ->
  named element = true /\ located element = true /\ h = spec_record element.
Proof.
  destruct element as [| | | | | |entries]; try discriminate.
  intros Hname Hrecord.
  destruct (dict_get "tags" entries) as [tags|] eqn:Htags;
    [| unfold hospital_of in Hrecord; simpl in Hrecord; rewrite Htags in Hrecord;
       discriminate].
  destruct tags as [| | | | | |tags];
    try (unfold hospital_of in Hrecord; simpl in Hrecord; rewrite Htags in Hrecord;
         discriminate).
  rewrite (hospital_of_tagged _ _ Htags) in Hrecord.
  unfold has_name in Hname. simpl in Hname. unfold dict_has at 1 in Hname.
  rewrite Htags in Hname. simpl in Hname. injection Hname as Hname.
  simpl. rewrite Htags. unfold dict_has at 2 3.
  destruct (dict_get "lat" entries); [|discriminate].
  destruct (dict_get "lon" entries); [|discriminate].
  injection Hrecord as <-. repeat split. exact Hname.
Qed.

Lemma has_name_false (element : pyval) :
  has_name element = Ok false -> named element = false.
Proof.
  intros Hname. destruct (named element) eqn:Hnamed; [|reflexivity].
  rewrite (has_name_named _ Hnamed) in Hname. discriminate.
Qed.

(** A loop that ends without raising has kept the named elements. *)
Lemma for_elements_ok (elements : list pyval) :
  forall hospitals result : list hospital,
  for_elements elements hospitals = Ok result ->
  result = (hospitals ++ map spec_record (filter named elements))%list
  /\ forall element, In element elements -> named element = true ->
                     located element = true.
Proof.
  induction elements as [|first rest IH]; simpl; intros hospitals result Hloop.
  - injection Hloop as <-. split; [now rewrite app_nil_r | intros element []].
  - destruct (has_name first) as [[|]|e] eqn:Hname; simpl in Hloop; [| |discriminate].
    + destruct (hospital_of first) as [h|e] eqn:Hrecord; simpl in Hloop; [|discriminate].
      destruct (has_name_hospital_of _ _ Hname Hrecord) as [Hnamed [Hloc ->]].
      destruct (IH _ _ Hloop) as [-> Hrest]. rewrite Hnamed. simpl.
      split; [now rewrite <- app_assoc|].
      intros element [<- | Hin] Helement; [exact Hloc | now apply Hrest].
    + destruct (IH _ _ Hloop) as [-> Hrest]. rewrite (has_name_false _ Hname).
      split; [reflexivity|].
      intros element [<- | Hin] Helement; [|now apply Hrest].
      rewrite (has_name_false _ Hname) in Helement. discriminate.
Qed.

(** X9: on any JSON value at all, a search that returns at least one
    record, or that displays nothing, has run through the items of
    ["elements"] without a failure, and what it returns is exactly one
    record per element that has a tags object with a name, in the order
    of the response; every such element had both coordinates.  The
    result is never a part of the named elements only. *)
Theorem X9_result_is_all_named_elements
  (w : world) (latitude longitude : spec_float) (radius : Z) (s : run_state)
  (response : http_response) (data : pyval) (hospitals : list hospital)
  (after : run_state) :
  let request := Post overpass_url (overpass_query latitude longitude radius) in
  requests_post w overpass_url (overpass_query latitude longitude radius) = Ok response ->
  json response = Ok data ->
  get_nearby_hospitals w latitude longitude radius s = (Normal hospitals, after) ->
  hospitals <> [] \/ trace after = (trace s ++ [request])%list ->
  exists elements : list pyval,
    (let? found := py_get data "elements" (PList []) in py_iter found) = Ok elements
    /\ hospitals = map spec_record (filter named elements)
    /\ (forall element, In element elements -> named element = true ->
                        located element = true)
    /\ after = logged s [request].
Proof.
  intros request Hpost Hjson Hrun Hsuccess. subst request.
  rewrite (get_nearby_hospitals_answered _ _ _ _ _ _ _ Hpost Hjson) in Hrun.
  simpl in Hrun.
  destruct (py_get data "elements" (PList [])) as [found|e]; simpl in Hrun |- *.
  - destruct (py_iter found) as [elements|e]; simpl in Hrun |- *.
    + destruct (for_elements elements []) as [result|e] eqn:Hloop.
      * injection Hrun as <- <-. exists elements.
        destruct (for_elements_ok _ _ _ Hloop) as [-> Hloc].
        repeat split; auto.
      * exfalso. injection Hrun as <- <-.
        destruct Hsuccess as [Hne | Htrace]; [now apply Hne|].
        simpl in Htrace. apply app_inv_head in Htrace. discriminate.
    + exfalso. injection Hrun as <- <-.
      destruct Hsuccess as [Hne | Htrace]; [now apply Hne|].
      simpl in Htrace. apply app_inv_head in Htrace. discriminate.
  - exfalso. injection Hrun as <- <-.
    destruct Hsuccess as [Hne | Htrace]; [now apply Hne|].
    simpl in Htrace. apply app_inv_head in Htrace. discriminate.
Qed.

(** A response of a named and an unnamed element. *)
Lemma X9_witness :
  exists elements : list pyval,
    (let? found := py_get (PDict [("elements", PList [general_hospital; unnamed_clinic])])
                     "elements" (PList [])
     in py_iter found) = Ok elements
    /\ [spec_record general_hospital] = map spec_record (filter named elements)
    /\ (forall element, In element elements -> named element = true ->
                        located element = true)
    /\ logged first_run
         [Post overpass_url (overpass_query sample_latitude sample_longitude 5000)]
       = logged first_run
           [Post overpass_url (overpass_query sample_latitude sample_longitude 5000)].
Proof.
  exact (X9_result_is_all_named_elements
           (answering (PDict [("elements", PList [general_hospital; unnamed_clinic])]))
           sample_latitude sample_longitude 5000 first_run
           {| json := Ok (PDict [("elements", PList [general_hospital; unnamed_clinic])]) |}
           (PDict [("elements", PList [general_hospital; unnamed_clinic])])
           [spec_record general_hospital]
           (logged first_run
              [Post overpass_url (overpass_query sample_latitude sample_longitude 5000)])
           eq_refl eq_refl eq_refl (or_intror eq_refl)).
Defined.

(** X10: a record the loop builds carries what the element says: its
    name is the value of the name tag (the default "Unnamed Hospital" of
    line 54 is never used, the test of line 52 having found the tag),
    its phone and address are the values of the ["phone"] and
    ["addr:full"] tags when the element has them and the defaults only
    when it has not, and its coordinates are those of the element. *)
Theorem X10_record_carries_the_tags_of_its_element (element : pyval) (h : hospital) :
  has_name element = Ok true ->
  hospital_of element = Ok h ->
  exists entries tags : list (string * pyval),
    element = PDict entries
    /\ dict_get "tags" entries = Some (PDict tags)
    /\ dict_get "name" tags = Some (name h)
    /\ phone h = match dict_get "phone" tags with
                 | Some number => number
                 | None => PStr "N/A"
                 end
    /\ address h = match dict_get "addr:full" tags with
                   | Some place => place
                   | None => PStr "Address not available"
                   end
    /\ dict_get "lat" entries = Some (lat h)
    /\ dict_get "lon" entries = Some (lon h).
Proof.
  intros Hname Hrecord.
  destruct (has_name_hospital_of _ _ Hname Hrecord) as [Hnamed [Hloc ->]].
  destruct element as [| | | | | |entries]; try discriminate.
  simpl in Hnamed, Hloc.
  destruct (dict_get "tags" entries) as [[| | | | | |tags]|] eqn:Htags; try discriminate.
  exists entries, tags. unfold spec_record, tag_or, field_or_none, dict_has in *.
  simpl. rewrite Htags.
  destruct (dict_get "name" tags); [|discriminate].
  destruct (dict_get "lat" entries); [|discriminate].
  destruct (dict_get "lon" entries); [|discriminate].
  repeat split.
Qed.

(** An element with every tag. *)
Lemma X10_witness :
  let element :=
    PDict [("lat", PFloat sample_latitude); ("lon", PFloat sample_longitude);
           ("tags", PDict [("name", PStr "City Clinic"); ("phone", PStr "555-1234");
                           ("addr:full", PStr "1 Main Street")])] in
  exists entries tags : list (string * pyval),
    element = PDict entries
    /\ dict_get "tags" entries = Some (PDict tags)
    /\ dict_get "name" tags = Some (PStr "City Clinic")
    /\ PStr "555-1234" = match dict_get "phone" tags with
                         | Some number => number
                         | None => PStr "N/A"
                         end
    /\ PStr "1 Main Street" = match dict_get "addr:full" tags with
                              | Some place => place
                              | None => PStr "Address not available"
                              end
    /\ dict_get "lat" entries = Some (PFloat sample_latitude)
    /\ dict_get "lon" entries = Some (PFloat sample_longitude).
Proof.
  intros element.
  exact (X10_record_carries_the_tags_of_its_element element
           {| name := PStr "City Clinic"; phone := PStr "555-1234";
              lat := PFloat sample_latitude; lon := PFloat sample_longitude;
              address := PStr "1 Main Street" |}
           eq_refl eq_refl).
Defined.

(** X11: a response that is JSON but not of the expected shape is
    handled like a failed request.  When the value is not an object, or
    when its ["elements"] is null, a boolean or a number, the search
    displays the error of the failing operation and returns the empty
    list; it does not raise. *)
Theorem X11_unexpected_json_is_reported_and_empty
  (w : world) (latitude longitude : spec_float) (radius : Z) (s : run_state)
  (response : http_response) (data : pyval) :
  let request := Post overpass_url (overpass_query latitude longitude radius) in
  let reported e :=
    get_nearby_hospitals w latitude longitude radius s
    = (Normal [],
       logged s [request; StError ("Error fetching hospital data: " ++ str_exn e)]) in
  requests_post w overpass_url (overpass_query latitude longitude radius) = Ok response ->
  json response = Ok data ->
  ((forall top, data <> PDict top) -> reported (NoAttribute (type_name data) "get"))
  /\ (forall top found,
        data = PDict top ->
        dict_get "elements" top = Some found ->
        (forall items, found <> PList items) ->
        (forall entries, found <> PDict entries) ->
        (forall chars, found <> PStr chars) ->
        reported (NotIterable (type_name found))).
Proof.
  intros request reported Hpost Hjson. subst reported request.
  rewrite (get_nearby_hospitals_answered _ _ _ _ _ _ _ Hpost Hjson). split.
  - intros Hshape. destruct data; try reflexivity. now destruct (Hshape entries).
  - intros top found -> Hfound Hlist Hdict Hstr. simpl. rewrite Hfound. simpl.
    destruct found; try reflexivity.
    + now destruct (Hstr s0).
    + now destruct (Hlist items).
    + now destruct (Hdict entries).
Qed.

(** A response that is a JSON list, and one whose elements are null. *)
Lemma X11_witness :
  fst (get_nearby_hospitals (answering (PList [general_hospital]))
         sample_latitude sample_longitude 5000 first_run)
  = Normal []
  /\ fst (get_nearby_hospitals (answering (PDict [("elements", PNone)]))
            sample_latitude sample_longitude 5000 first_run)
     = Normal [].
Proof.
  split.
  - refine (f_equal fst
              (proj1 (X11_unexpected_json_is_reported_and_empty
                        (answering (PList [general_hospital]))
                        sample_latitude sample_longitude 5000 first_run
                        {| json := Ok (PList [general_hospital]) |}
                        (PList [general_hospital]) eq_refl eq_refl) _)).
    intros top H. discriminate H.
  - refine (f_equal fst
              (proj2 (X11_unexpected_json_is_reported_and_empty
                        (answering (PDict [("elements", PNone)]))
                        sample_latitude sample_longitude 5000 first_run
                        {| json := Ok (PDict [("elements", PNone)]) |}
                        (PDict [("elements", PNone)]) eq_refl eq_refl)
                     [("elements", PNone)] PNone eq_refl eq_refl _ _ _)).
    all: intros x H; discriminate H.
Defined.

(** ** The Find Nearby Hospitals button *)

(** X12: a click on Find Nearby Hospitals with a latitude or a longitude
    equal to zero (of either sign) makes no request: the test of line
    167 takes the zero for a missing entry, the notice "Please enter
    valid latitude and longitude." is displayed, and the store keeps its
    turns.  A point on the equator or on the prime meridian cannot be
    searched. *)
Theorem X12_zero_coordinate_blocks_search (w : world) (ui : surface) (s : run_state) :
  clicked ui = Some FindNearbyHospitals ->
  (exists sign, latitude_input ui = S754_zero sign)
  \/ (exists sign, longitude_input ui = S754_zero sign) ->
  act w ui s
  = (Normal tt,
     {| conversation := Some (turns s);
        trace := (trace s ++ [StError "Please enter valid latitude and longitude."])%list |}).
Proof.
  intros Hclick Hzero.
  assert (Htest : nonzero (latitude_input ui) && nonzero (longitude_input ui) = false).
  { destruct Hzero as [[sign ->] | [sign ->]]; simpl; [reflexivity|].
    apply andb_false_r. }
  destruct s as [[c|] tr]; unfold act, main, st_button; rewrite Hclick, Htest.
  all: destruct (nonempty (api_key_input ui)); simpl.
  all: unfold init_conversation, turns; unfold_script; reflexivity.
Qed.

(** A point on the equator. *)
Lemma X12_witness :
  let ui := {| api_key_input := "";
               model_select := "gemini-1.5-pro";
               latitude_input := S754_zero false;
               longitude_input := sample_longitude;
               slider := fun lo hi value => value;
               symptoms_input := "";
               clicked := Some FindNearbyHospitals |} in
  act (answering (PDict [("elements", PList [general_hospital])])) ui first_run
  = (Normal tt,
     {| conversation := Some [];
        trace := [StError "Please enter valid latitude and longitude."] |}).
Proof.
  intros ui.
  exact (X12_zero_coordinate_blocks_search
           (answering (PDict [("elements", PList [general_hospital])])) ui first_run
           eq_refl (or_introl (ex_intro _ false eq_refl))).
Defined.

(** ** The list of hospitals *)

Lemma call_links_from (hospitals : list hospital) :
  forall i : nat,
  call_links (hospital_list_from i hospitals)
  = map phone (filter (fun h => differs_from (phone h) "N/A") hospitals).
Proof.
  induction hospitals as [|h rest IH]; intros i; [reflexivity|].
  simpl. destruct (differs_from (phone h) "N/A"); simpl; now rewrite IH.
Qed.

Lemma list_length_from (hospitals : list hospital) :
  forall i : nat,
  length (hospital_list_from i hospitals)
  = (2 * length hospitals
     + length (filter (fun h => differs_from (phone h) "N/A") hospitals))%nat.
Proof.
  induction hospitals as [|h rest IH]; intros i; [reflexivity|].
  simpl. destruct (differs_from (phone h) "N/A"); simpl; rewrite IH; lia.
Qed.

Lemma differs_from_false (v : pyval) (s : string) :
  differs_from v s = false <-> v = PStr s.
Proof.
  unfold differs_from. rewrite negb_false_iff. split.
  - destruct v; simpl; try discriminate. intros H. apply String.eqb_eq in H. now subst.
  - intros ->. simpl. apply String.eqb_refl.
Qed.

(** X13: the list of hospitals shows a Call Hospital link for exactly
    the records whose phone is not the string "N/A", in the order of the
    records, each dialling the phone of its record; every record takes
    two markdown blocks and a third one when it has the link.  A record
    built from a named element without a ["phone"] tag has the phone
    "N/A" and so gets no link. *)
Theorem X13_call_link_for_known_phones_only (hospitals : list hospital) :
  call_links (hospital_list hospitals)
  = map phone (filter (fun h => differs_from (phone h) "N/A") hospitals)
  /\ length (hospital_list hospitals)
     = (2 * length hospitals + length (call_links (hospital_list hospitals)))%nat
  /\ (forall h : hospital,
        call_links (hospital_list [h]) = [] <-> phone h = PStr "N/A")
  /\ (forall element : pyval,
        named element = true -> has_tag "phone" element = false ->
        call_links (hospital_list [spec_record element]) = []).
Proof.
  unfold hospital_list. split; [apply call_links_from|].
  split; [rewrite call_links_from, list_length_from, length_map; reflexivity|].
  assert (Hone : forall h : hospital,
             call_links (hospital_list_from 0 [h]) = [] <-> phone h = PStr "N/A").
  { intros h. rewrite call_links_from. simpl.
    rewrite <- differs_from_false.
    destruct (differs_from (phone h) "N/A"); simpl; split; congruence. }
  split; [exact Hone|].
  intros element Hnamed Hphone. apply Hone.
  destruct element as [| | | | | |entries]; try discriminate.
  simpl in *. destruct (dict_get "tags" entries) as [[| | | | | |tags]|];
    try discriminate.
  unfold dict_has in Hphone. destruct (dict_get "phone" tags); [discriminate|].
  reflexivity.
Qed.

(** ** The growth of the context *)

Lemma prefix_empty (b : string) : String.prefix "" b = true.
Proof. destruct b; reflexivity. Qed.

Lemma prefix_same (a : string) : String.prefix a a = true.
Proof.
  induction a as [|c a IH]; simpl; [reflexivity|].
  destruct (ascii_dec c c) as [_|Hne]; [exact IH | now destruct Hne].
Qed.

Lemma prefix_append (a b : string) : String.prefix a (a ++ b) = true.
Proof.
  induction a as [|c a IH]; simpl; [apply prefix_empty|].
  destruct (ascii_dec c c) as [_|Hne]; [exact IH | now destruct Hne].
Qed.

Lemma prefix_append_same (a b c : string) :
  String.prefix (a ++ b) (a ++ c) = String.prefix b c.
Proof.
  induction a as [|x a IH]; simpl; [reflexivity|].
  destruct (ascii_dec x x) as [_|Hne]; [exact IH | now destruct Hne].
Qed.

(** The lines of a longer list start with the lines of the shorter one. *)
Lemma concat_prefix (sep : string) (lines more : list string) :
  String.prefix (String.concat sep lines) (String.concat sep (lines ++ more)) = true.
Proof.
  induction lines as [|x [|y lines] IH].
  - apply prefix_empty.
  - destruct more as [|z more]; simpl.
    + apply prefix_same.
    + apply prefix_append.
  - change (String.prefix (x ++ sep ++ String.concat sep (y :: lines))
              (x ++ sep ++ String.concat sep ((y :: lines) ++ more)) = true).
    rewrite !prefix_append_same. exact IH.
Qed.

Lemma session_appends (actions : list (world * surface)) :
  forall s : run_state,
  exists added : list turn, turns (session actions s) = (turns s ++ added)%list.
Proof.
  induction actions as [|[w ui] actions IH]; intros s; simpl.
  - exists []. now rewrite app_nil_r.
  - destruct (IH (snd (act w ui s))) as [added2 ->].
    pose proof (act_store_step w ui s) as Hstep.
    destruct (ready_to_send ui).
    + destruct Hstep as [reply ->]. eexists. now rewrite <- app_assoc.
    + rewrite Hstep. now exists added2.
Qed.

(** X14: the store is only ever appended to, and the context grows with
    it: after any actions the turns of the store are the earlier turns
    followed by the new ones, and the serialization of the store, which
    the next Send hands to the model as context, begins with the
    serialization of the earlier store.  Nothing is dropped or cut from
    the context however long the session gets. *)
Theorem X14_context_only_grows (actions : list (world * surface)) (s : run_state) :
  (exists added : list turn, turns (session actions s) = (turns s ++ added)%list)
  /\ String.prefix (context_of (turns s)) (context_of (turns (session actions s))) = true
  /\ (length (turns s) <= length (turns (session actions s)))%nat.
Proof.
  destruct (session_appends actions s) as [added Hadded].
  split; [now exists added|]. rewrite Hadded. split.
  - unfold context_of. rewrite map_app. apply concat_prefix.
  - rewrite length_app. lia.
Qed.

(** ** One request for each search *)

(** X15: a click on Find Nearby Hospitals with two non-zero coordinates
    makes exactly one request, the query built with the coordinates of
    the page and the value of the slider, and makes it again at every
    click: nothing is kept from an earlier search, and a failed request
    is not tried again.  What follows the request in the trace is
    nothing, or the one error notice of a failed search; the turns of
    the store stay as they were. *)
Theorem X15_find_click_makes_one_request (w : world) (ui : surface) (s : run_state) :
  clicked ui = Some FindNearbyHospitals ->
  nonzero (latitude_input ui) && nonzero (longitude_input ui) = true ->
  let request :=
    Post overpass_url
      (overpass_query (latitude_input ui) (longitude_input ui) (slider ui 1000 10000 5000)) in
  turns (snd (act w ui s)) = turns s
  /\ (trace (snd (act w ui s)) = (trace s ++ [request])%list
      \/ exists e : exn,
          trace (snd (act w ui s))
          = (trace s ++ [request;
                         StError ("Error fetching hospital data: " ++ str_exn e)])%list).
Proof.
  intros Hclick Hcoords request. subst request.
  pose proof (act_store_step w ui s) as Hstep.
  unfold ready_to_send in Hstep. rewrite Hclick in Hstep.
  split; [exact Hstep|]. rewrite act_trace.
  destruct s as [[c|] tr]; unfold main, st_button; rewrite Hclick, Hcoords.
  all: destruct (nonempty (api_key_input ui)); simpl.
  all: unfold init_conversation; unfold_script; simpl.
  all: match goal with
       | |- context [get_nearby_hospitals ?w ?la ?lo ?r ?st] =>
           destruct (search_records_or_notice w la lo r st)
             as [[hospitals Hrun] | [e Hrun]]; rewrite Hrun; simpl
       end.
  all: try (left; reflexivity).
  all: right; exists e; reflexivity.
Qed.

(** Two searches in a row, against a server that is down. *)
Lemma X15_witness :
  let w := sample_world (Ok tt) (Raise (LibraryError "unused"))
             (Raise (LibraryError "Connection refused")) in
  let ui := page_with_slider 3000 (Some FindNearbyHospitals) in
  let request := Post overpass_url (overpass_query sample_latitude sample_longitude 3000) in
  let once := snd (act w ui first_run) in
  (trace once = [request]
   \/ exists e, trace once
                = [request; StError ("Error fetching hospital data: " ++ str_exn e)])
  /\ trace (snd (act w ui once))
     = [request; StError "Error fetching hospital data: Connection refused";
        request; StError "Error fetching hospital data: Connection refused"].
Proof.
  intros w ui request once.
  split; [|reflexivity].
  exact (proj2 (X15_find_click_makes_one_request w ui first_run eq_refl eq_refl)).
Defined.

(** ** How a Send ends *)

(** X16: a Send click never ends in an exception, whatever the model
    library does: every failure of its calls is caught and turned into
    text.  The run returns early exactly when the key is empty, it ends
    in [st.rerun()] exactly when there are a key and a text and both
    setup calls succeed, and it runs on to the end of the page
    otherwise; after the rerun the action is over. *)
Theorem X16_send_never_ends_in_exception (w : world) (ui : surface) (s : run_state) :
  clicked ui = Some Send ->
  (forall e, fst (main w ui s) <> Raised e)
  /\ (forall e, fst (act w ui s) <> Raised e)
  /\ fst (act w ui s) <> Rerun
  /\ (fst (main w ui s) = Returned <-> nonempty (api_key_input ui) = false)
  /\ (fst (main w ui s) = Rerun
      <-> ready_to_send ui = true
          /\ genai_configure w (api_key_input ui) = Ok tt
          /\ exists m, genai_GenerativeModel w (model_select ui) = Ok m).
Proof.
  intros Hclick. unfold ready_to_send. rewrite Hclick.
  destruct (nonempty (api_key_input ui)) eqn:Hkey;
    destruct (nonempty (symptoms_input ui)) eqn:Htext.
  2-4: destruct s as [[c|] tr]; unfold_main; rewrite Hclick, Hkey, ?Htext; simpl;
    repeat split; try discriminate; try tauto;
    try (intros [H _]; discriminate H).
  destruct (genai_configure w (api_key_input ui)) as [[]|e1] eqn:Hconf.
  - destruct (genai_GenerativeModel w (model_select ui)) as [m|e2] eqn:Hmodel.
    + destruct (send_with_model w ui s m Hclick Hkey Htext Hconf Hmodel) as [Hmain Hact].
      rewrite Hmain, Hact. simpl. repeat split; try discriminate.
      now exists m.
    + destruct (send_setup_fails w ui s e2 Hclick Hkey Htext
                  (or_intror (conj Hconf Hmodel))) as [calls [_ [Hmain Hact]]].
      rewrite Hmain, Hact. simpl. repeat split; try discriminate.
      intros [_ [_ [m Hm]]]. discriminate Hm.
  - destruct (send_setup_fails w ui s e1 Hclick Hkey Htext (or_introl Hconf))
      as [calls [_ [Hmain Hact]]].
    rewrite Hmain, Hact. simpl. repeat split; try discriminate.
    intros [_ [H _]]. discriminate H.
Qed.

(** A Send against a library that fails at every call. *)
Lemma X16_witness :
  let w := sample_world (Raise (LibraryError "invalid key"))
             (Raise (LibraryError "unknown model"))
             (Raise (LibraryError "Connection refused")) in
  fst (act w (sample_page "secret" "fever" (Some Send)) first_run)
  <> Raised (LibraryError "invalid key")
  /\ fst (act w (sample_page "secret" "fever" (Some Send)) first_run) <> Rerun.
Proof.
  intros w.
  destruct (X16_send_never_ends_in_exception
              w (sample_page "secret" "fever" (Some Send)) first_run eq_refl)
    as [_ [Hnever [Hover _]]].
  split; [exact (Hnever (LibraryError "invalid key")) | exact Hover].
Defined.
